(** * CubeMars AK80-64 motor control: the MIT-mode frame codec of [motor.py]
      and the application of [app.py], its continuous-send scheduler, its
      connection and its handlers

    The Python functions are embedded as Rocq functions, one definition
    per source function and with the source's names.

    - Python [int] is [Z]; [>>], [<<], [&] and [|] are [Z.shiftr],
      [Z.shiftl], [Z.land] and [Z.lor].
    - Python [float] is a type [F] with the operations of the class
      [PyFloat].  The source is embedded once, for every such [F], and read
      at two instances: [binary64], the IEEE-754 doubles Python computes
      with (Rocq's primitive floats), and [exact], the rationals [Q], where
      every operation is exact.  Statements that rest on the structure of
      the code or on the order of the floats alone are made for every [F];
      statements over all inputs that rest on arithmetic are made at
      [exact], where a setpoint is a number (no NaN, no infinity);
      statements at given inputs are made at both instances.
    - An exception is the [Raise] case of [result]; the objects a function
      receives and may mutate are the state of the monad [M]. *)

From Stdlib Require Import ZArith QArith Qabs Qround Floats.
From Stdlib Require Import List Bool String Lia Lqa.
Import ListNotations.

Local Open Scope Z_scope.

(** ** Exceptions and results *)

Inductive exn : Set :=
| ValueError
| OverflowError
| ZeroDivisionError
| IndexError
| AttributeError
| CanError.

Inductive result (A : Type) : Type :=
| Ok (a : A)
| Raise (e : exn).

Arguments Ok {A} a.
Arguments Raise {A} e.

Definition is_ok {A} (r : result A) : bool :=
  match r with Ok _ => true | Raise _ => false end.

(** ** Python floats *)

Class PyFloat (F : Type) : Type := {
  (** a decimal literal of the source text *)
  lit : Q -> F;
  (** [float(n)] for an [int] [n] *)
  float_of_int : Z -> result F;
  fneg : F -> F;
  fadd : F -> F -> F;
  fsub : F -> F -> F;
  fmul : F -> F -> F;
  (** the quotient by a divisor that is not zero *)
  fquo : F -> F -> F;
  (** [x == 0.0] *)
  fis_zero : F -> bool;
  (** [x < y] *)
  flt : F -> F -> bool;
  (** [int(x)]: truncation toward zero *)
  int_of_float : F -> result Z
}.

(** [x / y]: Python raises [ZeroDivisionError] on a zero divisor. *)
Definition fdiv {F} `{PyFloat F} (x y : F) : result F :=
  if fis_zero y then Raise ZeroDivisionError else Ok (fquo x y).

(** [min(a, b)] and [max(a, b)] of two arguments: the first one is kept
    unless the second is strictly smaller (resp. greater). *)
Definition py_min {F} `{PyFloat F} (a b : F) : F := if flt b a then b else a.
Definition py_max {F} `{PyFloat F} (a b : F) : F := if flt a b then b else a.

(** *** Exact arithmetic *)

Definition Qltb (a b : Q) : bool := negb (Qle_bool b a).

Definition Qtrunc (q : Q) : Z := Z.quot (Qnum q) (Zpos (Qden q)).

#[export] Instance exact : PyFloat Q := {|
  lit := fun q => q;
  float_of_int := fun n => Ok (inject_Z n);
  fneg := Qopp;
  fadd := Qplus;
  fsub := Qminus;
  fmul := Qmult;
  fquo := Qdiv;
  fis_zero := fun q => Qeq_bool q 0;
  flt := Qltb;
  int_of_float := fun q => Ok (Qtrunc q)
|}.

(** *** IEEE-754 binary64 *)

Module B64.

(** The integer [z] rounded to the nearest double, ties to even. *)
Definition of_Z (z : Z) : float :=
  SF2Prim (binary_normalize prec emax z 0 false).

Definition is_finite (f : float) : bool :=
  match Prim2SF f with
  | S754_zero _ | S754_finite _ _ _ => true
  | S754_infinity _ | S754_nan => false
  end.

(** [float(n)]: an integer of at most 53 bits is a double; a larger one
    is rounded, with [OverflowError] when it rounds out of the doubles. *)
Definition float_of_int (z : Z) : result float :=
  if Z.abs z <? 2 ^ 53 then Ok (of_Z z)
  else
    let f := of_Z z in
    if is_finite f then Ok f else Raise OverflowError.

(** [int(x)]: [ValueError] on a NaN, [OverflowError] on an infinity. *)
Definition int_of_float (f : float) : result Z :=
  match Prim2SF f with
  | S754_zero _ => Ok 0
  | S754_finite s m e =>
      let a := if 0 <=? e then Z.shiftl (Zpos m) e
               else Z.shiftr (Zpos m) (- e) in
      Ok (if s then - a else a)
  | S754_infinity _ => Raise OverflowError
  | S754_nan => Raise ValueError
  end.

(** A decimal literal denotes the double nearest to it; the quotient of
    two integers that are doubles is rounded that way. *)
Definition lit (q : Q) : float :=
  PrimFloat.div (of_Z (Qnum q)) (of_Z (Zpos (Qden q))).


End B64.

#[export] Instance binary64 : PyFloat float := {|
  lit := B64.lit;
  float_of_int := B64.float_of_int;
  fneg := PrimFloat.opp;
  fadd := PrimFloat.add;
  fsub := PrimFloat.sub;
  fmul := PrimFloat.mul;
  fquo := PrimFloat.div;
  fis_zero := fun x => PrimFloat.eqb x PrimFloat.zero;
  flt := PrimFloat.ltb;
  int_of_float := B64.int_of_float
|}.

Declare Scope pyfloat_scope.
Delimit Scope pyfloat_scope with F.
Notation "x - y" := (fsub x y) : pyfloat_scope.
Notation "x + y" := (fadd x y) : pyfloat_scope.
Notation "x * y" := (fmul x y) : pyfloat_scope.
Notation "- x" := (fneg x) : pyfloat_scope.
Notation "x <? y" := (flt x y) : pyfloat_scope.

(** ** [constants.py] *)

(** The limits of the five channels. *)
Record Limits (F : Type) : Type := {
  P_MIN : F; P_MAX : F;
  V_MIN : F; V_MAX : F;
  KP_MIN : F; KP_MAX : F;
  KD_MIN : F; KD_MAX : F;
  T_MIN : F; T_MAX : F
}.

Arguments P_MIN {F} _. Arguments P_MAX {F} _.
Arguments V_MIN {F} _. Arguments V_MAX {F} _.
Arguments KP_MIN {F} _. Arguments KP_MAX {F} _.
Arguments KD_MIN {F} _. Arguments KD_MAX {F} _.
Arguments T_MIN {F} _. Arguments T_MAX {F} _.

(** The values of [constants.py], for the AK80-64. *)
Definition AK80_64 {F} `{PyFloat F} : Limits F := {|
  P_MIN := (- lit 12.5)%F;  P_MAX := lit 12.5;
  V_MIN := (- lit 8.0)%F;   V_MAX := lit 8.0;
  KP_MIN := lit 0.0;        KP_MAX := lit 500.0;
  KD_MIN := lit 0.0;        KD_MAX := lit 5.0;
  T_MIN := (- lit 144.0)%F; T_MAX := lit 144.0
|}.

(** CAN controller ID *)
Definition CONTROLLER_ID : Z := 0x17.

(** ** [motor.py]: the fixed-point conversions *)

Section Conversions.
Context {F : Type} `{PyFloat F}.

Definition float_to_uint (x x_min x_max : F) (bits : Z) : result Z :=
  let span := (x_max - x_min)%F in
  let offset := x_min in
  if bits =? 12 then
    match fdiv ((x - offset) * lit 4095.0)%F span with
    | Ok q => int_of_float q
    | Raise e => Raise e
    end
  else if bits =? 16 then
    match fdiv ((x - offset) * lit 65535.0)%F span with
    | Ok q => int_of_float q
    | Raise e => Raise e
    end
  else Ok 0.

Definition uint_to_float (x_int : Z) (x_min x_max : F) (bits : Z) : result F :=
  let span := (x_max - x_min)%F in
  let offset := x_min in
  if bits =? 12 then
    match float_of_int x_int with
    | Ok fx =>
        match fdiv (fx * span)%F (lit 4095.0) with
        | Ok q => Ok (q + offset)%F
        | Raise e => Raise e
        end
    | Raise e => Raise e
    end
  else if bits =? 16 then
    match float_of_int x_int with
    | Ok fx =>
        match fdiv (fx * span)%F (lit 65535.0) with
        | Ok q => Ok (q + offset)%F
        | Raise e => Raise e
        end
    | Raise e => Raise e
    end
  else Ok (lit 0.0).

End Conversions.

(** ** Objects, state and exceptions *)

(** A computation over objects of state [S]: it returns or raises, and
    leaves a state either way (what was written before an exception stays
    written). *)
Definition M (S A : Type) : Type := S -> result A * S.

Definition ret {S A} (a : A) : M S A := fun s => (Ok a, s).

Definition raise {S A} (e : exn) : M S A := fun s => (Raise e, s).

Definition bind {S A B} (c : M S A) (k : A -> M S B) : M S B :=
  fun s =>
    match c s with
    | (Ok a, s') => k a s'
    | (Raise e, s') => (Raise e, s')
    end.

Definition lift {S A} (r : result A) : M S A := fun s => (r, s).

Definition gets {S A} (f : S -> A) : M S A := fun s => (Ok (f s), s).

Definition modify {S} (f : S -> S) : M S unit := fun s => (Ok tt, f s).

(** [try: body except: handler], with a bare [except]. *)
Definition try_except {S A} (body handler : M S A) : M S A :=
  fun s =>
    match body s with
    | (Ok a, s') => (Ok a, s')
    | (Raise _, s') => handler s'
    end.

Notation "x <- c ;; k" := (bind c (fun x => k))
  (at level 61, c at next level, right associativity).
Notation "c ;;; k" := (bind c (fun _ => k))
  (at level 61, right associativity).

(** *** [bytearray] and indexing *)

Definition bytearray (n : nat) : list Z := repeat 0 n.

Fixpoint list_set (l : list Z) (i : nat) (v : Z) : option (list Z) :=
  match l, i with
  | [], _ => None
  | _ :: t, O => Some (v :: t)
  | h :: t, S j => option_map (cons h) (list_set t j v)
  end.

(** [buf[i] = v] on a [bytearray]: the value must be in [range(256)] and the
    index inside the buffer. *)
Definition setitem (buf : list Z) (i : nat) (v : Z) : result (list Z) :=
  if (0 <=? v) && (v <? 256) then
    match list_set buf i v with
    | Some buf' => Ok buf'
    | None => Raise IndexError
    end
  else Raise ValueError.

(** [buf[i]] *)
Definition getitem (buf : list Z) (i : nat) : result Z :=
  match nth_error buf i with
  | Some b => Ok b
  | None => Raise IndexError
  end.

(** *** [can.Message] and the bus *)

Record Message : Set := {
  arbitration_id : Z;
  data : list Z;
  is_extended_id : bool
}.

(** The bus object: [send] is recorded in [send_calls], then raises or
    not as the transport decides. *)
Record Bus : Type := {
  send_raises : Message -> bool;
  send_calls : list Message
}.

Definition record_send (b : Bus) (msg : Message) : Bus :=
  {| send_raises := send_raises b;
     send_calls := send_calls b ++ [msg] |}.

(** [bus.send(msg)], on a parameter [bus] that may be [None]. *)
Definition bus_send (msg : Message) : M (option Bus) unit :=
  fun bus =>
    match bus with
    | None => (Raise AttributeError, None)
    | Some b =>
        if send_raises b msg then (Raise CanError, Some (record_send b msg))
        else (Ok tt, Some (record_send b msg))
    end.

(** *** [MotorState] *)

Record MotorState (F : Type) : Type := {
  p_in : F; v_in : F; kp_in : F; kd_in : F; t_in : F;
  p_out : F; v_out : F; t_out : F
}.

Arguments p_in {F} _. Arguments v_in {F} _. Arguments kp_in {F} _.
Arguments kd_in {F} _. Arguments t_in {F} _.
Arguments p_out {F} _. Arguments v_out {F} _. Arguments t_out {F} _.

(** [MotorState.__init__] *)
Definition MotorState_init {F} `{PyFloat F} : MotorState F := {|
  p_in := lit 0.0; v_in := lit 0.0; kp_in := lit 0.0;
  kd_in := lit 0.50; t_in := lit 0.0;
  p_out := lit 0.0; v_out := lit 0.0; t_out := lit 0.0
|}.

Section Attributes.
Context {F : Type}.

Definition set_p_out (x : F) : M (MotorState F) unit :=
  modify (fun st =>
    {| p_in := p_in st; v_in := v_in st; kp_in := kp_in st;
       kd_in := kd_in st; t_in := t_in st;
       p_out := x; v_out := v_out st; t_out := t_out st |}).

Definition set_v_out (x : F) : M (MotorState F) unit :=
  modify (fun st =>
    {| p_in := p_in st; v_in := v_in st; kp_in := kp_in st;
       kd_in := kd_in st; t_in := t_in st;
       p_out := p_out st; v_out := x; t_out := t_out st |}).

Definition set_t_out (x : F) : M (MotorState F) unit :=
  modify (fun st =>
    {| p_in := p_in st; v_in := v_in st; kp_in := kp_in st;
       kd_in := kd_in st; t_in := t_in st;
       p_out := p_out st; v_out := v_out st; t_out := x |}).

End Attributes.

(** The two objects [pack_cmd] receives. *)
Record World (F : Type) : Type := {
  bus : option Bus;
  motor_state : MotorState F
}.

Arguments bus {F} _. Arguments motor_state {F} _.

(** A computation on the bus, run on the bus of a [World]. *)
Definition on_bus {F A} (c : M (option Bus) A) : M (World F) A :=
  fun w =>
    let (r, b') := c (bus w) in
    (r, {| bus := b'; motor_state := motor_state w |}).

(** ** [motor.py]: the mode commands *)

Section ModeCommands.

Definition enter_mode : M (option Bus) bool :=
  bus <- gets (fun b => b) ;;
  match bus with
  | None => ret false
  | Some _ =>
      let msg := {| arbitration_id := CONTROLLER_ID;
                    data := [0xFF; 0xFF; 0xFF; 0xFF; 0xFF; 0xFF; 0xFF; 0xFC];
                    is_extended_id := false |} in
      try_except (bus_send msg ;;; ret true) (ret false)
  end.

Definition exit_mode : M (option Bus) bool :=
  bus <- gets (fun b => b) ;;
  match bus with
  | None => ret false
  | Some _ =>
      let msg := {| arbitration_id := CONTROLLER_ID;
                    data := [0xFF; 0xFF; 0xFF; 0xFF; 0xFF; 0xFF; 0xFF; 0xFD];
                    is_extended_id := false |} in
      try_except (bus_send msg ;;; ret true) (ret false)
  end.

Definition zero_position : M (option Bus) bool :=
  bus <- gets (fun b => b) ;;
  match bus with
  | None => ret false
  | Some _ =>
      let msg := {| arbitration_id := CONTROLLER_ID;
                    data := [0xFF; 0xFF; 0xFF; 0xFF; 0xFF; 0xFF; 0xFF; 0xFE];
                    is_extended_id := false |} in
      try_except (bus_send msg ;;; ret true) (ret false)
  end.

End ModeCommands.

(** ** [motor.py]: the command and reply frames *)

Section Frames.
Context {F : Type} `{PyFloat F}.
Variable K : Limits F.

Definition pack_cmd : M (World F) bool :=
  bus <- gets bus ;;
  match bus with
  | None => ret false
  | Some _ =>
      motor_state <- gets motor_state ;;
      (* Constrain values *)
      let p_des := py_max (py_min (p_in motor_state) (P_MAX K)) (P_MIN K) in
      let v_des := py_max (py_min (v_in motor_state) (V_MAX K)) (V_MIN K) in
      let kp := py_max (py_min (kp_in motor_state) (KP_MAX K)) (KP_MIN K) in
      let kd := py_max (py_min (kd_in motor_state) (KD_MAX K)) (KD_MIN K) in
      let t_ff := py_max (py_min (t_in motor_state) (T_MAX K)) (T_MIN K) in
      (* Convert to integers *)
      p_int <- lift (float_to_uint p_des (P_MIN K) (P_MAX K) 16) ;;
      v_int <- lift (float_to_uint v_des (V_MIN K) (V_MAX K) 12) ;;
      kp_int <- lift (float_to_uint kp (KP_MIN K) (KP_MAX K) 12) ;;
      kd_int <- lift (float_to_uint kd (KD_MIN K) (KD_MAX K) 12) ;;
      t_int <- lift (float_to_uint t_ff (T_MIN K) (T_MAX K) 12) ;;
      (* Pack into buffer *)
      let buf := bytearray 8 in
      buf <- lift (setitem buf 0 (Z.shiftr p_int 8)) ;;
      buf <- lift (setitem buf 1 (Z.land p_int 0xFF)) ;;
      buf <- lift (setitem buf 2 (Z.shiftr v_int 4)) ;;
      buf <- lift (setitem buf 3
               (Z.lor (Z.shiftl (Z.land v_int 0xF) 4) (Z.shiftr kp_int 8))) ;;
      buf <- lift (setitem buf 4 (Z.land kp_int 0xFF)) ;;
      buf <- lift (setitem buf 5 (Z.shiftr kd_int 4)) ;;
      buf <- lift (setitem buf 6
               (Z.lor (Z.shiftl (Z.land kd_int 0xF) 4) (Z.shiftr t_int 8))) ;;
      buf <- lift (setitem buf 7 (Z.land t_int 0xFF)) ;;
      let msg := {| arbitration_id := CONTROLLER_ID;
                    data := buf;
                    is_extended_id := false |} in
      try_except (on_bus (bus_send msg) ;;; ret true) (ret false)
  end.

Definition unpack_reply (msg : option Message) : M (MotorState F) bool :=
  match msg with
  | None => ret false
  | Some msg =>
      try_except
        (let buf := data msg in
         id_received <- lift (getitem buf 0) ;;
         b1 <- lift (getitem buf 1) ;;
         b2 <- lift (getitem buf 2) ;;
         let p_int := Z.lor (Z.shiftl b1 8) b2 in
         b3 <- lift (getitem buf 3) ;;
         b4 <- lift (getitem buf 4) ;;
         let v_int := Z.lor (Z.shiftl b3 4) (Z.shiftr b4 4) in
         b4 <- lift (getitem buf 4) ;;
         b5 <- lift (getitem buf 5) ;;
         let i_int := Z.lor (Z.shiftl (Z.land b4 0xF) 8) b5 in
         p <- lift (uint_to_float p_int (P_MIN K) (P_MAX K) 16) ;;
         set_p_out p ;;;
         v <- lift (uint_to_float v_int (V_MIN K) (V_MAX K) 12) ;;
         set_v_out v ;;;
         t <- lift (uint_to_float i_int (- T_MAX K)%F (T_MAX K) 12) ;;
         set_t_out t ;;;
         ret true)
        (ret false)
  end.

End Frames.

(** ** [app.py]: the continuous-send scheduler *)

(** [try: body except ValueError: handler] *)
Definition try_except_ValueError {S A} (body handler : M S A) : M S A :=
  fun s =>
    match body s with
    | (Raise ValueError, s') => handler s'
    | r => r
    end.

(** The messages [toggle_continuous] and [stop_continuous] log. *)
Inductive LogMessage (F : Type) : Type :=
| Started_continuous (interval : F)
| Stopped_continuous
| Invalid_interval.

Arguments Started_continuous {F} interval.
Arguments Stopped_continuous {F}.
Arguments Invalid_interval {F}.

(** What Kivy's [Clock] holds for one [schedule_interval] call: the
    callback is [continuous_update] throughout. *)
Record ClockEvent (F : Type) : Type := {
  event_id : nat;
  event_interval : F
}.

Arguments event_id {F} _. Arguments event_interval {F} _.

(** The attributes of [MotorControlApp] the scheduler reads and writes,
    with the [Clock] they act on. *)
Record App (F : Type) : Type := {
  continuous_active : bool;
  continuous_event : option nat;
  continuous_checkbox_text : string;
  continuous_button_text : string;
  continuous_button_background_color : list Q;
  log_lines : list (LogMessage F);
  clock_events : list (ClockEvent F);
  clock_next_id : nat
}.

Arguments continuous_active {F} _. Arguments continuous_event {F} _.
Arguments continuous_checkbox_text {F} _.
Arguments continuous_button_text {F} _.
Arguments continuous_button_background_color {F} _.
Arguments log_lines {F} _. Arguments clock_events {F} _.
Arguments clock_next_id {F} _.

Section Scheduler.
Context {F : Type} `{PyFloat F}.

(** [float(text)] on a [str]: the parse is the interpreter's. *)
Variable float_of_str : string -> result F.

Definition set_continuous_active (b : bool) : M (App F) unit :=
  modify (fun a =>
    {| continuous_active := b;
       continuous_event := continuous_event a;
       continuous_checkbox_text := continuous_checkbox_text a;
       continuous_button_text := continuous_button_text a;
       continuous_button_background_color :=
         continuous_button_background_color a;
       log_lines := log_lines a;
       clock_events := clock_events a;
       clock_next_id := clock_next_id a |}).

Definition set_continuous_event (e : option nat) : M (App F) unit :=
  modify (fun a =>
    {| continuous_active := continuous_active a;
       continuous_event := e;
       continuous_checkbox_text := continuous_checkbox_text a;
       continuous_button_text := continuous_button_text a;
       continuous_button_background_color :=
         continuous_button_background_color a;
       log_lines := log_lines a;
       clock_events := clock_events a;
       clock_next_id := clock_next_id a |}).

Definition set_continuous_button (text : string) (color : list Q)
  : M (App F) unit :=
  modify (fun a =>
    {| continuous_active := continuous_active a;
       continuous_event := continuous_event a;
       continuous_checkbox_text := continuous_checkbox_text a;
       continuous_button_text := text;
       continuous_button_background_color := color;
       log_lines := log_lines a;
       clock_events := clock_events a;
       clock_next_id := clock_next_id a |}).

(** [self.log(message)] *)
Definition log (m : LogMessage F) : M (App F) unit :=
  modify (fun a =>
    {| continuous_active := continuous_active a;
       continuous_event := continuous_event a;
       continuous_checkbox_text := continuous_checkbox_text a;
       continuous_button_text := continuous_button_text a;
       continuous_button_background_color :=
         continuous_button_background_color a;
       log_lines := log_lines a ++ [m];
       clock_events := clock_events a;
       clock_next_id := clock_next_id a |}).

(** [Clock.schedule_interval(self.continuous_update, interval)] *)
Definition Clock_schedule_interval (interval : F) : M (App F) nat :=
  fun a =>
    let e := clock_next_id a in
    (Ok e,
     {| continuous_active := continuous_active a;
        continuous_event := continuous_event a;
        continuous_checkbox_text := continuous_checkbox_text a;
        continuous_button_text := continuous_button_text a;
        continuous_button_background_color :=
          continuous_button_background_color a;
        log_lines := log_lines a;
        clock_events :=
          clock_events a ++ [{| event_id := e; event_interval := interval |}];
        clock_next_id := S e |}).

(** [event.cancel()] *)
Definition ClockEvent_cancel (e : nat) : M (App F) unit :=
  modify (fun a =>
    {| continuous_active := continuous_active a;
       continuous_event := continuous_event a;
       continuous_checkbox_text := continuous_checkbox_text a;
       continuous_button_text := continuous_button_text a;
       continuous_button_background_color :=
         continuous_button_background_color a;
       log_lines := log_lines a;
       clock_events :=
         filter (fun ev => negb (Nat.eqb (event_id ev) e)) (clock_events a);
       clock_next_id := clock_next_id a |}).

Definition stop_continuous : M (App F) unit :=
  active <- gets continuous_active ;;
  if active : bool then
    event <- gets continuous_event ;;
    match event with
    | Some e => ClockEvent_cancel e ;;; set_continuous_event None
    | None => ret tt
    end ;;;
    set_continuous_active false ;;;
    set_continuous_button "Start Continuous" [0.2; 0.7; 0.2; 1]%Q ;;;
    log Stopped_continuous
  else ret tt.

Definition toggle_continuous : M (App F) unit :=
  active <- gets continuous_active ;;
  if active : bool then stop_continuous
  else
    try_except_ValueError
      (text <- gets continuous_checkbox_text ;;
       interval <- lift (float_of_str text) ;;
       let interval :=
         if (interval <? lit 0.01)%F then lit 0.01 else interval in
       set_continuous_active true ;;;
       set_continuous_button "Stop Continuous" [0.7; 0.2; 0.2; 1]%Q ;;;
       event <- Clock_schedule_interval interval ;;
       set_continuous_event (Some event) ;;;
       log (Started_continuous interval))
      (log Invalid_interval).

End Scheduler.

(** ** [motor.py]: the interface of the platform *)

(** [detect_can_interface], on what [platform.system()] returns: the
    interface and the channel. *)
Definition detect_can_interface (system : string) : string * string :=
  if String.eqb system "Windows" then ("slcan", "COM5")%string
  else if String.eqb system "Linux" then ("slcan", "/dev/ttyACM0")%string
  else ("slcan", "COM5")%string.

(** ** [app.py]: the application and its handlers *)

(** [try: body except Exception as e: handler] *)
Definition try_except_as {S A} (body : M S A) (handler : exn -> M S A)
  : M S A :=
  fun s =>
    match body s with
    | (Ok a, s') => (Ok a, s')
    | (Raise e, s') => handler e s'
    end.

(** The messages the connection and the handlers log; [Command_sent]
    carries the five setpoints it prints, [Connecting_to] the interface and
    the channel, [Connection_error] the exception. *)
Inductive HandlerMessage (F : Type) : Type :=
| Connecting_to (interface channel : string)
| Connected_successfully
| Connection_error (e : exn)
| Disconnected
| Entered_MIT_Mode
| Failed_to_enter_MIT_Mode
| Exited_MIT_Mode
| Failed_to_exit_MIT_Mode
| Position_zeroed
| Failed_to_zero_position
| Command_sent (P V Kp Kd T : F)
| Failed_to_send_command.

Arguments Connecting_to {F} interface channel.
Arguments Connected_successfully {F}.
Arguments Connection_error {F} e.
Arguments Disconnected {F}.
Arguments Entered_MIT_Mode {F}. Arguments Failed_to_enter_MIT_Mode {F}.
Arguments Exited_MIT_Mode {F}. Arguments Failed_to_exit_MIT_Mode {F}.
Arguments Position_zeroed {F}. Arguments Failed_to_zero_position {F}.
Arguments Command_sent {F} P V Kp Kd T.
Arguments Failed_to_send_command {F}.

(** [StatusDisplay]: the numbers its three labels show, each to two
    decimals. *)
Record StatusDisplay (F : Type) : Type := {
  position_label : F;
  velocity_label : F;
  torque_label : F
}.

Arguments position_label {F} _. Arguments velocity_label {F} _.
Arguments torque_label {F} _.

(** The connect button, the status label and the [disabled] flag of the
    five buttons [toggle_connection] enables and disables. *)
Record Widgets : Type := {
  connect_button_text : string;
  connect_button_background_color : list Q;
  status_label_text : string;
  status_label_color : list Q;
  enter_mode_button_disabled : bool;
  exit_mode_button_disabled : bool;
  zero_position_button_disabled : bool;
  send_command_button_disabled : bool;
  continuous_button_disabled : bool
}.

(** The attributes of [MotorControlApp]: [self.bus] and [self.motor_state]
    are the [World] of [pack_cmd]; a slider stands for its [value] and
    [channel_input] for its [text]; [scheduler] holds the attributes of the
    continuous control and the [Clock]; [status_thread] tells whether a
    thread has been made; [printed] is what [self.log] has printed outside
    the scheduler; [scheduled_once] counts the calls of
    [update_status_display] handed to [Clock.schedule_once] and not yet
    made; [shutdown_calls] lists the buses [shutdown] was called on. *)
Record MotorControlApp (F : Type) : Type := {
  connected : bool;
  world : World F;
  status_thread : bool;
  stop_thread : bool;
  can_interface : string;
  bitrate : Z;
  channel_input : string;
  widgets : Widgets;
  position_slider : F;
  velocity_slider : F;
  kp_slider : F;
  kd_slider : F;
  torque_slider : F;
  status_display : StatusDisplay F;
  scheduler : App F;
  printed : list (HandlerMessage F);
  scheduled_once : nat;
  shutdown_calls : list Bus
}.

Arguments connected {F} _. Arguments world {F} _.
Arguments status_thread {F} _. Arguments stop_thread {F} _.
Arguments can_interface {F} _. Arguments bitrate {F} _.
Arguments channel_input {F} _. Arguments widgets {F} _.
Arguments position_slider {F} _. Arguments velocity_slider {F} _.
Arguments kp_slider {F} _. Arguments kd_slider {F} _.
Arguments torque_slider {F} _. Arguments status_display {F} _.
Arguments scheduler {F} _. Arguments printed {F} _.
Arguments scheduled_once {F} _. Arguments shutdown_calls {F} _.

Section Setpoints.
Context {F : Type}.

Definition set_p_in (x : F) : M (MotorState F) unit :=
  modify (fun st =>
    {| p_in := x; v_in := v_in st; kp_in := kp_in st;
       kd_in := kd_in st; t_in := t_in st;
       p_out := p_out st; v_out := v_out st; t_out := t_out st |}).

Definition set_v_in (x : F) : M (MotorState F) unit :=
  modify (fun st =>
    {| p_in := p_in st; v_in := x; kp_in := kp_in st;
       kd_in := kd_in st; t_in := t_in st;
       p_out := p_out st; v_out := v_out st; t_out := t_out st |}).

Definition set_kp_in (x : F) : M (MotorState F) unit :=
  modify (fun st =>
    {| p_in := p_in st; v_in := v_in st; kp_in := x;
       kd_in := kd_in st; t_in := t_in st;
       p_out := p_out st; v_out := v_out st; t_out := t_out st |}).

Definition set_kd_in (x : F) : M (MotorState F) unit :=
  modify (fun st =>
    {| p_in := p_in st; v_in := v_in st; kp_in := kp_in st;
       kd_in := x; t_in := t_in st;
       p_out := p_out st; v_out := v_out st; t_out := t_out st |}).

Definition set_t_in (x : F) : M (MotorState F) unit :=
  modify (fun st =>
    {| p_in := p_in st; v_in := v_in st; kp_in := kp_in st;
       kd_in := kd_in st; t_in := x;
       p_out := p_out st; v_out := v_out st; t_out := t_out st |}).

(** A computation on the motor state, run on that of a [World]. *)
Definition on_motor_state {A} (c : M (MotorState F) A) : M (World F) A :=
  fun w =>
    let (r, st') := c (motor_state w) in
    (r, {| bus := bus w; motor_state := st' |}).

(** [self.bus = b] *)
Definition set_bus (b : option Bus) : M (World F) unit :=
  modify (fun w => {| bus := b; motor_state := motor_state w |}).

End Setpoints.

Section WidgetAttributes.

Definition set_connect_button (text : string) (color : list Q)
  : M Widgets unit :=
  modify (fun w =>
    {| connect_button_text := text;
       connect_button_background_color := color;
       status_label_text := status_label_text w;
       status_label_color := status_label_color w;
       enter_mode_button_disabled := enter_mode_button_disabled w;
       exit_mode_button_disabled := exit_mode_button_disabled w;
       zero_position_button_disabled := zero_position_button_disabled w;
       send_command_button_disabled := send_command_button_disabled w;
       continuous_button_disabled := continuous_button_disabled w |}).

Definition set_status_label (text : string) (color : list Q)
  : M Widgets unit :=
  modify (fun w =>
    {| connect_button_text := connect_button_text w;
       connect_button_background_color := connect_button_background_color w;
       status_label_text := text;
       status_label_color := color;
       enter_mode_button_disabled := enter_mode_button_disabled w;
       exit_mode_button_disabled := exit_mode_button_disabled w;
       zero_position_button_disabled := zero_position_button_disabled w;
       send_command_button_disabled := send_command_button_disabled w;
       continuous_button_disabled := continuous_button_disabled w |}).

Definition set_enter_mode_button_disabled (d : bool) : M Widgets unit :=
  modify (fun w =>
    {| connect_button_text := connect_button_text w;
       connect_button_background_color := connect_button_background_color w;
       status_label_text := status_label_text w;
       status_label_color := status_label_color w;
       enter_mode_button_disabled := d;
       exit_mode_button_disabled := exit_mode_button_disabled w;
       zero_position_button_disabled := zero_position_button_disabled w;
       send_command_button_disabled := send_command_button_disabled w;
       continuous_button_disabled := continuous_button_disabled w |}).

Definition set_exit_mode_button_disabled (d : bool) : M Widgets unit :=
  modify (fun w =>
    {| connect_button_text := connect_button_text w;
       connect_button_background_color := connect_button_background_color w;
       status_label_text := status_label_text w;
       status_label_color := status_label_color w;
       enter_mode_button_disabled := enter_mode_button_disabled w;
       exit_mode_button_disabled := d;
       zero_position_button_disabled := zero_position_button_disabled w;
       send_command_button_disabled := send_command_button_disabled w;
       continuous_button_disabled := continuous_button_disabled w |}).

Definition set_zero_position_button_disabled (d : bool) : M Widgets unit :=
  modify (fun w =>
    {| connect_button_text := connect_button_text w;
       connect_button_background_color := connect_button_background_color w;
       status_label_text := status_label_text w;
       status_label_color := status_label_color w;
       enter_mode_button_disabled := enter_mode_button_disabled w;
       exit_mode_button_disabled := exit_mode_button_disabled w;
       zero_position_button_disabled := d;
       send_command_button_disabled := send_command_button_disabled w;
       continuous_button_disabled := continuous_button_disabled w |}).

Definition set_send_command_button_disabled (d : bool) : M Widgets unit :=
  modify (fun w =>
    {| connect_button_text := connect_button_text w;
       connect_button_background_color := connect_button_background_color w;
       status_label_text := status_label_text w;
       status_label_color := status_label_color w;
       enter_mode_button_disabled := enter_mode_button_disabled w;
       exit_mode_button_disabled := exit_mode_button_disabled w;
       zero_position_button_disabled := zero_position_button_disabled w;
       send_command_button_disabled := d;
       continuous_button_disabled := continuous_button_disabled w |}).

Definition set_continuous_button_disabled (d : bool) : M Widgets unit :=
  modify (fun w =>
    {| connect_button_text := connect_button_text w;
       connect_button_background_color := connect_button_background_color w;
       status_label_text := status_label_text w;
       status_label_color := status_label_color w;
       enter_mode_button_disabled := enter_mode_button_disabled w;
       exit_mode_button_disabled := exit_mode_button_disabled w;
       zero_position_button_disabled := zero_position_button_disabled w;
       send_command_button_disabled := send_command_button_disabled w;
       continuous_button_disabled := d |}).

End WidgetAttributes.

Section AppAttributes.
Context {F : Type}.

(** A computation on the bus and the motor state, run on those of the
    application. *)
Definition on_world {A} (c : M (World F) A) : M (MotorControlApp F) A :=
  fun a =>
    let (r, w') := c (world a) in
    (r, {| connected := connected a;
           world := w';
           status_thread := status_thread a;
           stop_thread := stop_thread a;
           can_interface := can_interface a;
           bitrate := bitrate a;
           channel_input := channel_input a;
           widgets := widgets a;
           position_slider := position_slider a;
           velocity_slider := velocity_slider a;
           kp_slider := kp_slider a;
           kd_slider := kd_slider a;
           torque_slider := torque_slider a;
           status_display := status_display a;
           scheduler := scheduler a;
           printed := printed a;
           scheduled_once := scheduled_once a;
           shutdown_calls := shutdown_calls a |}).

(** A computation on the widgets, run on those of the application. *)
Definition on_widgets {A} (c : M Widgets A) : M (MotorControlApp F) A :=
  fun a =>
    let (r, w') := c (widgets a) in
    (r, {| connected := connected a;
           world := world a;
           status_thread := status_thread a;
           stop_thread := stop_thread a;
           can_interface := can_interface a;
           bitrate := bitrate a;
           channel_input := channel_input a;
           widgets := w';
           position_slider := position_slider a;
           velocity_slider := velocity_slider a;
           kp_slider := kp_slider a;
           kd_slider := kd_slider a;
           torque_slider := torque_slider a;
           status_display := status_display a;
           scheduler := scheduler a;
           printed := printed a;
           scheduled_once := scheduled_once a;
           shutdown_calls := shutdown_calls a |}).

(** A computation on the status display, run on that of the
    application. *)
Definition on_status_display {A} (c : M (StatusDisplay F) A)
  : M (MotorControlApp F) A :=
  fun a =>
    let (r, d') := c (status_display a) in
    (r, {| connected := connected a;
           world := world a;
           status_thread := status_thread a;
           stop_thread := stop_thread a;
           can_interface := can_interface a;
           bitrate := bitrate a;
           channel_input := channel_input a;
           widgets := widgets a;
           position_slider := position_slider a;
           velocity_slider := velocity_slider a;
           kp_slider := kp_slider a;
           kd_slider := kd_slider a;
           torque_slider := torque_slider a;
           status_display := d';
           scheduler := scheduler a;
           printed := printed a;
           scheduled_once := scheduled_once a;
           shutdown_calls := shutdown_calls a |}).

(** A computation of the continuous control, run on the scheduler of the
    application. *)
Definition on_scheduler {A} (c : M (App F) A) : M (MotorControlApp F) A :=
  fun a =>
    let (r, s') := c (scheduler a) in
    (r, {| connected := connected a;
           world := world a;
           status_thread := status_thread a;
           stop_thread := stop_thread a;
           can_interface := can_interface a;
           bitrate := bitrate a;
           channel_input := channel_input a;
           widgets := widgets a;
           position_slider := position_slider a;
           velocity_slider := velocity_slider a;
           kp_slider := kp_slider a;
           kd_slider := kd_slider a;
           torque_slider := torque_slider a;
           status_display := status_display a;
           scheduler := s';
           printed := printed a;
           scheduled_once := scheduled_once a;
           shutdown_calls := shutdown_calls a |}).

Definition set_connected (c : bool) : M (MotorControlApp F) unit :=
  modify (fun a =>
    {| connected := c;
       world := world a;
       status_thread := status_thread a;
       stop_thread := stop_thread a;
       can_interface := can_interface a;
       bitrate := bitrate a;
       channel_input := channel_input a;
       widgets := widgets a;
       position_slider := position_slider a;
       velocity_slider := velocity_slider a;
       kp_slider := kp_slider a;
       kd_slider := kd_slider a;
       torque_slider := torque_slider a;
       status_display := status_display a;
       scheduler := scheduler a;
       printed := printed a;
       scheduled_once := scheduled_once a;
       shutdown_calls := shutdown_calls a |}).

Definition set_stop_thread (s : bool) : M (MotorControlApp F) unit :=
  modify (fun a =>
    {| connected := connected a;
       world := world a;
       status_thread := status_thread a;
       stop_thread := s;
       can_interface := can_interface a;
       bitrate := bitrate a;
       channel_input := channel_input a;
       widgets := widgets a;
       position_slider := position_slider a;
       velocity_slider := velocity_slider a;
       kp_slider := kp_slider a;
       kd_slider := kd_slider a;
       torque_slider := torque_slider a;
       status_display := status_display a;
       scheduler := scheduler a;
       printed := printed a;
       scheduled_once := scheduled_once a;
       shutdown_calls := shutdown_calls a |}).

(** [self.status_thread = threading.Thread(...)], made a daemon and
    started. *)
Definition set_status_thread (t : bool) : M (MotorControlApp F) unit :=
  modify (fun a =>
    {| connected := connected a;
       world := world a;
       status_thread := t;
       stop_thread := stop_thread a;
       can_interface := can_interface a;
       bitrate := bitrate a;
       channel_input := channel_input a;
       widgets := widgets a;
       position_slider := position_slider a;
       velocity_slider := velocity_slider a;
       kp_slider := kp_slider a;
       kd_slider := kd_slider a;
       torque_slider := torque_slider a;
       status_display := status_display a;
       scheduler := scheduler a;
       printed := printed a;
       scheduled_once := scheduled_once a;
       shutdown_calls := shutdown_calls a |}).

(** [self.log(message)], outside the scheduler. *)
Definition print_log (m : HandlerMessage F) : M (MotorControlApp F) unit :=
  modify (fun a =>
    {| connected := connected a;
       world := world a;
       status_thread := status_thread a;
       stop_thread := stop_thread a;
       can_interface := can_interface a;
       bitrate := bitrate a;
       channel_input := channel_input a;
       widgets := widgets a;
       position_slider := position_slider a;
       velocity_slider := velocity_slider a;
       kp_slider := kp_slider a;
       kd_slider := kd_slider a;
       torque_slider := torque_slider a;
       status_display := status_display a;
       scheduler := scheduler a;
       printed := printed a ++ [m];
       scheduled_once := scheduled_once a;
       shutdown_calls := shutdown_calls a |}).

(** [Clock.schedule_once(lambda dt: self.update_status_display(), 0)] *)
Definition Clock_schedule_once : M (MotorControlApp F) unit :=
  modify (fun a =>
    {| connected := connected a;
       world := world a;
       status_thread := status_thread a;
       stop_thread := stop_thread a;
       can_interface := can_interface a;
       bitrate := bitrate a;
       channel_input := channel_input a;
       widgets := widgets a;
       position_slider := position_slider a;
       velocity_slider := velocity_slider a;
       kp_slider := kp_slider a;
       kd_slider := kd_slider a;
       torque_slider := torque_slider a;
       status_display := status_display a;
       scheduler := scheduler a;
       printed := printed a;
       scheduled_once := S (scheduled_once a);
       shutdown_calls := shutdown_calls a |}).

(** [self.bus.shutdown()]: the call is recorded; whether it raises is the
    transport's, and both callers discard the exception. *)
Definition Bus_shutdown (b : Bus) : M (MotorControlApp F) unit :=
  modify (fun a =>
    {| connected := connected a;
       world := world a;
       status_thread := status_thread a;
       stop_thread := stop_thread a;
       can_interface := can_interface a;
       bitrate := bitrate a;
       channel_input := channel_input a;
       widgets := widgets a;
       position_slider := position_slider a;
       velocity_slider := velocity_slider a;
       kp_slider := kp_slider a;
       kd_slider := kd_slider a;
       torque_slider := torque_slider a;
       status_display := status_display a;
       scheduler := scheduler a;
       printed := printed a;
       scheduled_once := scheduled_once a;
       shutdown_calls := shutdown_calls a ++ [b] |}).

(** [StatusDisplay.update_values] *)
Definition update_values (position velocity torque : F)
  : M (StatusDisplay F) unit :=
  modify (fun _ =>
    {| position_label := position;
       velocity_label := velocity;
       torque_label := torque |}).

(** [self.connected and self.bus], as a condition. *)
Definition connected_and_bus (a : MotorControlApp F) : bool :=
  connected a &&
  match bus (world a) with Some _ => true | None => false end.

Definition on_enter_mode : M (MotorControlApp F) unit :=
  ready <- gets connected_and_bus ;;
  if ready : bool then
    ok <- on_world (on_bus enter_mode) ;;
    if ok : bool then print_log Entered_MIT_Mode
    else print_log Failed_to_enter_MIT_Mode
  else ret tt.

Definition on_exit_mode : M (MotorControlApp F) unit :=
  ready <- gets connected_and_bus ;;
  if ready : bool then
    ok <- on_world (on_bus exit_mode) ;;
    if ok : bool then print_log Exited_MIT_Mode
    else print_log Failed_to_exit_MIT_Mode
  else ret tt.

Definition on_zero_position : M (MotorControlApp F) unit :=
  ready <- gets connected_and_bus ;;
  if ready : bool then
    ok <- on_world (on_bus zero_position) ;;
    if ok : bool then print_log Position_zeroed
    else print_log Failed_to_zero_position
  else ret tt.

Definition update_status_display : M (MotorControlApp F) unit :=
  st <- gets (fun a => motor_state (world a)) ;;
  on_status_display (update_values (p_out st) (v_out st) (t_out st)).

(** [self.bus.shutdown()] in [try: ... except: pass], under
    [if self.bus:]. *)
Definition shutdown_bus : M (MotorControlApp F) unit :=
  b <- gets (fun a => bus (world a)) ;;
  match b with
  | Some b => try_except (Bus_shutdown b) (ret tt)
  | None => ret tt
  end.

End AppAttributes.

Section Handlers.
Context {F : Type} `{PyFloat F}.
Variable K : Limits F.

(** [can.interface.Bus(channel=..., interface=..., bitrate=...)]: the bus,
    or the exception, is the transport's. *)
Variable can_interface_Bus : string -> string -> Z -> result Bus.

(** [MotorControlApp()] followed by [build()], where [platform.system()]
    returns [system].  The color of the continuous button, which [build]
    does not set, is Kivy's default; the status display starts at 0.00 and
    nothing has been printed by [self.log]. *)
Definition build (system : string) : MotorControlApp F :=
  {| connected := false;
     world := {| bus := None; motor_state := MotorState_init |};
     status_thread := false;
     stop_thread := false;
     can_interface := fst (detect_can_interface system);
     bitrate := 1000000;
     channel_input := snd (detect_can_interface system);
     widgets :=
       {| connect_button_text := "Connect";
          connect_button_background_color := [0.2; 0.7; 0.2; 1]%Q;
          status_label_text := "Disconnected";
          status_label_color := [1; 0.3; 0.3; 1]%Q;
          enter_mode_button_disabled := true;
          exit_mode_button_disabled := true;
          zero_position_button_disabled := true;
          send_command_button_disabled := true;
          continuous_button_disabled := true |};
     position_slider := lit 0.0;
     velocity_slider := lit 0.0;
     kp_slider := lit 0.0;
     kd_slider := lit 0.5;
     torque_slider := lit 0.0;
     status_display :=
       {| position_label := lit 0.0;
          velocity_label := lit 0.0;
          torque_label := lit 0.0 |};
     scheduler :=
       {| continuous_active := false;
          continuous_event := None;
          continuous_checkbox_text := "0.1";
          continuous_button_text := "Start Continuous";
          continuous_button_background_color := [1; 1; 1; 1]%Q;
          log_lines := [];
          clock_events := [];
          clock_next_id := 0 |};
     printed := [];
     scheduled_once := 0;
     shutdown_calls := [] |}.

Definition toggle_connection : M (MotorControlApp F) unit :=
  connected <- gets connected ;;
  if negb connected then
    (* Try to connect *)
    try_except_as
      (channel <- gets channel_input ;;
       interface <- gets can_interface ;;
       print_log (Connecting_to interface channel) ;;;
       bitrate <- gets bitrate ;;
       bus <- lift (can_interface_Bus channel interface bitrate) ;;
       on_world (set_bus (Some bus)) ;;;
       set_connected true ;;;
       on_widgets (set_connect_button "Disconnect" [0.7; 0.2; 0.2; 1]%Q) ;;;
       on_widgets (set_status_label "Connected" [0.2; 0.8; 0.2; 1]%Q) ;;;
       (* Enable buttons *)
       on_widgets (set_enter_mode_button_disabled false) ;;;
       on_widgets (set_exit_mode_button_disabled false) ;;;
       on_widgets (set_zero_position_button_disabled false) ;;;
       on_widgets (set_send_command_button_disabled false) ;;;
       on_widgets (set_continuous_button_disabled false) ;;;
       (* Start status thread *)
       set_stop_thread false ;;;
       set_status_thread true ;;;
       print_log Connected_successfully)
      (fun e => print_log (Connection_error e))
  else
    (* Disconnect *)
    on_scheduler stop_continuous ;;;
    set_stop_thread true ;;;
    (* [self.status_thread.join(timeout=1.0)] writes no attribute *)
    bus <- gets (fun a => bus (world a)) ;;
    match bus with
    | Some b =>
        try_except (Bus_shutdown b) (ret tt) ;;;
        on_world (set_bus None)
    | None => ret tt
    end ;;;
    set_connected false ;;;
    on_widgets (set_connect_button "Connect" [0.2; 0.7; 0.2; 1]%Q) ;;;
    on_widgets (set_status_label "Disconnected" [1; 0.3; 0.3; 1]%Q) ;;;
    (* Disable buttons *)
    on_widgets (set_enter_mode_button_disabled true) ;;;
    on_widgets (set_exit_mode_button_disabled true) ;;;
    on_widgets (set_zero_position_button_disabled true) ;;;
    on_widgets (set_send_command_button_disabled true) ;;;
    on_widgets (set_continuous_button_disabled true) ;;;
    print_log Disconnected.

Definition on_send_command : M (MotorControlApp F) unit :=
  ready <- gets connected_and_bus ;;
  if ready : bool then
    (* Update motor state from sliders *)
    x <- gets position_slider ;; on_world (on_motor_state (set_p_in x)) ;;;
    x <- gets velocity_slider ;; on_world (on_motor_state (set_v_in x)) ;;;
    x <- gets kp_slider ;; on_world (on_motor_state (set_kp_in x)) ;;;
    x <- gets kd_slider ;; on_world (on_motor_state (set_kd_in x)) ;;;
    x <- gets torque_slider ;; on_world (on_motor_state (set_t_in x)) ;;;
    ok <- on_world (pack_cmd K) ;;
    if ok : bool then
      st <- gets (fun a => motor_state (world a)) ;;
      print_log
        (Command_sent (p_in st) (v_in st) (kp_in st) (kd_in st) (t_in st))
    else print_log Failed_to_send_command
  else ret tt.

Definition continuous_update : M (MotorControlApp F) unit :=
  ready <- gets connected_and_bus ;;
  if ready : bool then
    (* Update motor state from sliders *)
    x <- gets position_slider ;; on_world (on_motor_state (set_p_in x)) ;;;
    x <- gets velocity_slider ;; on_world (on_motor_state (set_v_in x)) ;;;
    x <- gets kp_slider ;; on_world (on_motor_state (set_kp_in x)) ;;;
    x <- gets kd_slider ;; on_world (on_motor_state (set_kd_in x)) ;;;
    x <- gets torque_slider ;; on_world (on_motor_state (set_t_in x)) ;;;
    on_world (pack_cmd K) ;;; ret tt
  else ret tt.

(** [status_update_thread]: the loop makes at most one pass for each
    element of [recvs], what [self.bus.recv(timeout=0.1)] does in that pass
    if it is called - a message, [None] on a timeout, or an exception - and
    ends when it finds [stop_thread] set. *)
Fixpoint status_update_thread (recvs : list (result (option Message)))
  : M (MotorControlApp F) unit :=
  match recvs with
  | [] => ret tt
  | recv :: recvs =>
      stop <- gets stop_thread ;;
      if stop : bool then ret tt
      else
        ready <- gets connected_and_bus ;;
        (if ready : bool then
           try_except
             (msg <- lift recv ;;
              match msg with
              | Some _ =>
                  ok <- on_world (on_motor_state (unpack_reply K msg)) ;;
                  if ok : bool then Clock_schedule_once else ret tt
              | None => ret tt
              end)
             (ret tt)
         else ret tt) ;;;
        status_update_thread recvs
  end.

Definition on_stop : M (MotorControlApp F) unit :=
  (* Clean up resources *)
  on_scheduler stop_continuous ;;;
  set_stop_thread true ;;;
  (* [self.status_thread.join(timeout=1.0)] writes no attribute *)
  shutdown_bus.

End Handlers.

(** ** Notions the statements are made with *)

(** [max(min(x, hi), lo)], the way [pack_cmd] constrains a setpoint. *)
Definition constrain {F} `{PyFloat F} (x lo hi : F) : F :=
  py_max (py_min x hi) lo.

(** The range table: one pair of limits per channel. *)
Definition channels {F} (K : Limits F) : list (F * F) :=
  [ (P_MIN K, P_MAX K); (V_MIN K, V_MAX K); (KP_MIN K, KP_MAX K);
    (KD_MIN K, KD_MAX K); (T_MIN K, T_MAX K) ].

(** [2^bits - 1], the largest raw value of a field. *)
Definition full_scale (bits : Z) : Z := 2 ^ bits - 1.




(** The decoder as the specification words it:
    [raw * (max - min) / (2^bits - 1) + min]. *)
Definition decode (raw : Z) (lo hi : Q) (bits : Z) : Q :=
  (inject_Z raw * (hi - lo) / inject_Z (full_scale bits) + lo)%Q.




Definition is_byte (b : Z) : Prop := 0 <= b < 256.

(** A message as the bus delivers it: its data is a [bytearray]. *)
Definition wf_message (m : Message) : Prop := Forall is_byte (data m).

(** The frame [pack_cmd] and the mode commands address to the motor. *)
Definition frame (payload : list Z) : Message :=
  {| arbitration_id := CONTROLLER_ID;
     data := payload;
     is_extended_id := false |}.

(** What the conversions need of the floats beyond their operations: the
    two scale literals are not zero and a 16-bit integer converts. *)
Class PyFloatFacts (F : Type) `{PyFloat F} : Prop := {
  float_of_int_16 :
    forall n, 0 <= n < 2 ^ 16 -> exists x : F, float_of_int n = Ok x;
  lit_4095_nonzero : fis_zero (lit (F:=F) 4095.0) = false;
  lit_65535_nonzero : fis_zero (lit (F:=F) 65535.0) = false
}.

(** What clamping needs of [<]: it is a strict order. *)
Class PyFloatOrder (F : Type) `{PyFloat F} : Prop := {
  flt_asym : forall a b : F, flt a b = true -> flt b a = false;
  flt_trans :
    forall a b c : F, flt a b = true -> flt b c = true -> flt a c = true
}.

(** The two steps [pack_cmd] applies to one setpoint: constrain it to the
    channel's limits, then convert. *)
Definition pack_field {F} `{PyFloat F} (x lo hi : F) (bits : Z) : result Z :=
  float_to_uint (constrain x lo hi) lo hi bits.

(** The state of the unit tests' [test_pack_cmd]. *)
Definition golden_state {F} `{PyFloat F} : MotorState F := {|
  p_in := lit 5.0; v_in := lit 2.0; kp_in := lit 100.0;
  kd_in := lit 2.0; t_in := lit 10.0;
  p_out := lit 0.0; v_out := lit 0.0; t_out := lit 0.0
|}.

(** A computation leaves every state related by [R] to the one it
    started from, whether it returns or raises. *)
Definition preserves {S A} (R : S -> S -> Prop) (c : M S A) : Prop :=
  forall s, R s (snd (c s)).

(** The motor state of a world is untouched. *)
Definition same_motor_state {F} (w w' : World F) : Prop :=
  motor_state w' = motor_state w.

(** The five setpoints of a motor state are untouched. *)
Definition same_setpoints {F} (st st' : MotorState F) : Prop :=
  p_in st' = p_in st /\ v_in st' = v_in st /\ kp_in st' = kp_in st /\
  kd_in st' = kd_in st /\ t_in st' = t_in st.

(** The three sentinel payloads. *)
Definition enter_payload : list Z :=
  [0xFF; 0xFF; 0xFF; 0xFF; 0xFF; 0xFF; 0xFF; 0xFC].
Definition exit_payload : list Z :=
  [0xFF; 0xFF; 0xFF; 0xFF; 0xFF; 0xFF; 0xFF; 0xFD].
Definition zero_payload : list Z :=
  [0xFF; 0xFF; 0xFF; 0xFF; 0xFF; 0xFF; 0xFF; 0xFE].

(** The two widths the conversions support. *)
Definition widths : list Z := [12; 16].

(** The limits of a channel convert exactly at a width: [min] to 0 and
    back to [min], [max] to [2^bits - 1], by [float_to_uint] alone and
    behind the clamp of [pack_cmd] alike.  [same] is the [==] of the
    floats. *)
Definition endpoints_exact {F} `{PyFloat F} (same : F -> F -> Prop)
    (c : F * F) (bits : Z) : Prop :=
  let (lo, hi) := c in
  float_to_uint lo lo hi bits = Ok 0 /\
  float_to_uint hi lo hi bits = Ok (full_scale bits) /\
  pack_field lo lo hi bits = Ok 0 /\
  pack_field hi lo hi bits = Ok (full_scale bits) /\
  exists k d,
    float_to_uint lo lo hi bits = Ok k /\
    uint_to_float k lo hi bits = Ok d /\ same d lo.

(** [a == b] on doubles. *)
Definition float_eq (a b : float) : Prop := PrimFloat.eqb a b = true.


(** The reply of the unit tests' [test_unpack_reply]. *)
Definition test_reply : Message :=
  frame [0x00; 0x80; 0x00; 0x08; 0x00; 0x08; 0x00; 0x00].




(** The state of [test_pack_cmd] with the position replaced by a NaN. *)
Definition nan_state : MotorState float := {|
  p_in := PrimFloat.nan; v_in := lit 2.0; kp_in := lit 100.0;
  kd_in := lit 2.0; t_in := lit 10.0;
  p_out := lit 0.0; v_out := lit 0.0; t_out := lit 0.0
|}.

(** A bus whose [send] never raises, with no call yet. *)
Definition quiet_bus : Bus :=
  {| send_raises := fun _ => false; send_calls := [] |}.

(** ** Notions of the further properties *)

(** The five setpoints as [pack_cmd] constrains them. *)
Definition constrained {F} `{PyFloat F} (K : Limits F) (st : MotorState F)
  : F * F * F * F * F :=
  (constrain (p_in st) (P_MIN K) (P_MAX K),
   constrain (v_in st) (V_MIN K) (V_MAX K),
   constrain (kp_in st) (KP_MIN K) (KP_MAX K),
   constrain (kd_in st) (KD_MIN K) (KD_MAX K),
   constrain (t_in st) (T_MIN K) (T_MAX K)).

(** [x != x]: the value is a NaN. *)
Definition is_nan (x : float) : bool := negb (PrimFloat.eqb x x).

(** Converting the raw value [k] to a double and back gives [k] or
    [k - 1]. *)
Definition reencodes (lo hi : float) (bits k : Z) : bool :=
  match uint_to_float k lo hi bits with
  | Ok d =>
      match float_to_uint d lo hi bits with
      | Ok k' => (k' =? k) || (k' =? k - 1)
      | Raise _ => false
      end
  | Raise _ => false
  end.

(** [p] holds of every integer from 0 below [n]. *)
Fixpoint all_below (n : nat) (p : Z -> bool) : bool :=
  match n with
  | O => true
  | S m => p (Z.of_nat m) && all_below m p
  end.

(** One of the five setpoints is a NaN. *)
Definition has_nan_setpoint (st : MotorState float) : bool :=
  is_nan (p_in st) || is_nan (v_in st) || is_nan (kp_in st) ||
  is_nan (kd_in st) || is_nan (t_in st).

(** Every event the [Clock] holds was created before the next one. *)
Definition clock_fresh {F} (a : App F) : bool :=
  forallb (fun ev => Nat.ltb (event_id ev) (clock_next_id a)) (clock_events a).

(** The [Clock] holds one event, the one kept in [continuous_event], while
    the scheduler is active, and none while it is not. *)
Definition one_timer {F} (a : App F) : bool :=
  match continuous_active a, continuous_event a, clock_events a with
  | true, Some e, [ev] => Nat.eqb (event_id ev) e
  | false, None, [] => true
  | _, _, _ => false
  end.



(** The application [a] with the bus and the motor state [w], the messages
    [ms] printed after those it had, and [n] display updates scheduled. *)
Definition app_with {F} (a : MotorControlApp F) (w : World F)
    (ms : list (HandlerMessage F)) (n : nat) : MotorControlApp F :=
  {| connected := connected a;
     world := w;
     status_thread := status_thread a;
     stop_thread := stop_thread a;
     can_interface := can_interface a;
     bitrate := bitrate a;
     channel_input := channel_input a;
     widgets := widgets a;
     position_slider := position_slider a;
     velocity_slider := velocity_slider a;
     kp_slider := kp_slider a;
     kd_slider := kd_slider a;
     torque_slider := torque_slider a;
     status_display := status_display a;
     scheduler := scheduler a;
     printed := printed a ++ ms;
     scheduled_once := n;
     shutdown_calls := shutdown_calls a |}.

(** The application [a] once [payload] has been handed to its bus [b], the
    motor state is [st] and the messages [ms] have been printed. *)
Definition after_send {F} (a : MotorControlApp F) (b : Bus)
    (payload : list Z) (st : MotorState F) (ms : list (HandlerMessage F))
  : MotorControlApp F :=
  app_with a
    {| bus := Some (record_send b (frame payload)); motor_state := st |}
    ms (scheduled_once a).

(** The application [a] once the reader thread has left the motor state
    [st] and [n] display updates are scheduled. *)
Definition after_reading {F} (a : MotorControlApp F) (st : MotorState F)
    (n : nat) : MotorControlApp F :=
  app_with a {| bus := bus (world a); motor_state := st |} [] n.

(** A pass of the reader in which the bus delivers a message of six bytes
    or more. *)
Definition decodable (recv : result (option Message)) : bool :=
  match recv with
  | Ok (Some m) => Nat.leb 6 (List.length (data m))
  | _ => false
  end.

(** What the bus delivers, when it delivers, is a message of bytes. *)
Definition delivers_bytes (recv : result (option Message)) : Prop :=
  match recv with
  | Ok (Some m) => wf_message m
  | _ => True
  end.

(** The widgets as [toggle_connection] leaves them: connected or not. *)
Definition widgets_when (connected : bool) : Widgets :=
  if connected then
    {| connect_button_text := "Disconnect";
       connect_button_background_color := [0.7; 0.2; 0.2; 1]%Q;
       status_label_text := "Connected";
       status_label_color := [0.2; 0.8; 0.2; 1]%Q;
       enter_mode_button_disabled := false;
       exit_mode_button_disabled := false;
       zero_position_button_disabled := false;
       send_command_button_disabled := false;
       continuous_button_disabled := false |}
  else
    {| connect_button_text := "Connect";
       connect_button_background_color := [0.2; 0.7; 0.2; 1]%Q;
       status_label_text := "Disconnected";
       status_label_color := [1; 0.3; 0.3; 1]%Q;
       enter_mode_button_disabled := true;
       exit_mode_button_disabled := true;
       zero_position_button_disabled := true;
       send_command_button_disabled := true;
       continuous_button_disabled := true |}.

(** The application is connected exactly when it holds a bus, and its
    widgets say so: the five command buttons are enabled exactly then, and
    the connect button and the status label read accordingly. *)
Definition consistent {F} (a : MotorControlApp F) : Prop :=
  (connected a = true <-> bus (world a) <> None) /\
  widgets a = widgets_when (connected a).

(** The methods of [MotorControlApp] that Kivy, the [Clock] and the reader
    thread call. *)
Inductive Callback : Type :=
| Toggle_connection
| On_enter_mode
| On_exit_mode
| On_zero_position
| On_send_command
| Toggle_continuous
| Continuous_update
| Status_update_thread (recvs : list (result (option Message)))
| Update_status_display
| On_stop.

Definition call {F} `{PyFloat F} (K : Limits F)
    (float_of_str : string -> result F)
    (can_interface_Bus : string -> string -> Z -> result Bus)
    (cb : Callback) : M (MotorControlApp F) unit :=
  match cb with
  | Toggle_connection => toggle_connection can_interface_Bus
  | On_enter_mode => on_enter_mode
  | On_exit_mode => on_exit_mode
  | On_zero_position => on_zero_position
  | On_send_command => on_send_command K
  | Toggle_continuous => on_scheduler (toggle_continuous float_of_str)
  | Continuous_update => continuous_update K
  | Status_update_thread recvs => status_update_thread K recvs
  | Update_status_display => update_status_display
  | On_stop => on_stop
  end.

(** A handler leaves the connection as it was: [connected], the widgets
    and the scheduler are untouched, and a bus is held after it exactly
    if one was before. *)
Definition same_connection {F} (a a' : MotorControlApp F) : Prop :=
  connected a' = connected a /\
  widgets a' = widgets a /\
  scheduler a' = scheduler a /\
  (bus (world a') = None <-> bus (world a) = None).

(** A bus is held after exactly if one was before. *)
Definition bus_kept {F} (w w' : World F) : Prop :=
  bus w' = None <-> bus w = None.





(** The telemetry of a world is untouched. *)
Definition same_telemetry {F} (w w' : World F) : Prop :=
  p_out (motor_state w') = p_out (motor_state w) /\
  v_out (motor_state w') = v_out (motor_state w) /\
  t_out (motor_state w') = t_out (motor_state w).

(** * Properties *)

(** ** The result monad *)

Lemma bind_ok {S A B} (c : M S A) (k : A -> M S B) s a s' :
  c s = (Ok a, s') -> bind c k s = k a s'.
Proof. intros E; unfold bind; now rewrite E. Qed.

Lemma bind_lift_ok {S A B} (r : result A) (k : A -> M S B) s a :
  r = Ok a -> bind (lift r) k s = k a s.
Proof. intros ->; reflexivity. Qed.

(** ** Exact arithmetic *)

Section ExactFacts.
Local Open Scope Q_scope.

Lemma Qltb_lt (a b : Q) : Qltb a b = true <-> a < b.
Proof.
  unfold Qltb; rewrite negb_true_iff, <- not_true_iff_false, Qle_bool_iff.
  split; [apply Qnot_le_lt | apply Qlt_not_le].
Qed.

Lemma Qltb_ge (a b : Q) : Qltb a b = false <-> b <= a.
Proof.
  unfold Qltb; rewrite negb_false_iff, Qle_bool_iff; reflexivity.
Qed.







End ExactFacts.

(** ** Bytes and bit fields *)

Lemma lor_shiftl_add (a b n : Z) :
  0 <= n -> 0 <= b < 2 ^ n -> Z.lor (Z.shiftl a n) b = a * 2 ^ n + b.
Proof.
  intros Hn Hb.
  assert (Hland : Z.land (Z.shiftl a n) b = 0).
  { apply Z.bits_inj'; intros i Hi.
    rewrite Z.land_spec, Z.bits_0.
    destruct (Z.lt_ge_cases i n) as [Hlt|Hge].
    - now rewrite Z.shiftl_spec_low.
    - destruct (Z.eq_dec b 0) as [->|Hnz];
        [now rewrite Z.bits_0, andb_false_r|].
      rewrite (Z.bits_above_log2 b i), andb_false_r; [reflexivity|lia|].
      apply Z.lt_le_trans with n; [|assumption].
      apply Z.log2_lt_pow2; lia. }
  rewrite <- (Z.add_0_r (Z.lor _ _)), <- Hland, Z.add_lor_land.
  now rewrite Z.shiftl_mul_pow2 by lia.
Qed.







(** ** [pack_cmd], for any floats *)

Section PackFacts.
Context {F : Type} `{PyFloat F}.
Variable K : Limits F.

Lemma pack_cmd_no_bus (st : MotorState F) :
  pack_cmd K {| bus := None; motor_state := st |}
  = (Ok false, {| bus := None; motor_state := st |}).
Proof. reflexivity. Qed.


End PackFacts.

(** ** The conversions in exact arithmetic *)

Section ExactConversions.
Local Open Scope Q_scope.






End ExactConversions.


(** ** The limits of the AK80-64 *)


(** ** Claim C1 *)


(** ** Clamping, for any floats whose [<] is a strict order *)

Lemma exact_order : PyFloatOrder Q.
Proof.
  split; cbn [flt exact].
  - intros a b Hab; apply Qltb_lt in Hab; apply Qltb_ge; lra.
  - intros a b c Hab Hbc; apply Qltb_lt in Hab, Hbc; apply Qltb_lt; lra.
Qed.

#[export] Existing Instance exact_order.

Section Clamping.
Context {F : Type} `{PyFloatOrder F}.

Lemma flt_irrefl (a : F) : flt a a = false.
Proof.
  destruct (flt a a) eqn:E; [|reflexivity].
  now rewrite (flt_asym a a E) in E.
Qed.

Lemma constrain_above (v lo hi : F) :
  flt lo hi = true -> flt hi v = true -> constrain v lo hi = hi.
Proof.
  intros Hlh Hv; unfold constrain, py_max, py_min.
  now rewrite Hv, (flt_asym lo hi Hlh).
Qed.

Lemma constrain_below (v lo hi : F) :
  flt lo hi = true -> flt v lo = true -> constrain v lo hi = lo.
Proof.
  intros Hlh Hv; unfold constrain, py_max, py_min.
  rewrite (flt_asym v hi (flt_trans v lo hi Hv Hlh)).
  now rewrite Hv.
Qed.

Lemma constrain_hi (lo hi : F) : flt lo hi = true -> constrain hi lo hi = hi.
Proof.
  intros Hlh; unfold constrain, py_max, py_min.
  now rewrite flt_irrefl, (flt_asym lo hi Hlh).
Qed.

Lemma constrain_lo (lo hi : F) : flt lo hi = true -> constrain lo lo hi = lo.
Proof.
  intros Hlh; unfold constrain, py_max, py_min.
  now rewrite (flt_asym lo hi Hlh), flt_irrefl.
Qed.

End Clamping.

(** *** The order of the doubles *)

Lemma SFcompare_antisym (f1 f2 : spec_float) :
  SFcompare f2 f1 = option_map CompOpp (SFcompare f1 f2).
Proof.
  destruct f1 as [s1|s1| |s1 m1 e1], f2 as [s2|s2| |s2 m2 e2];
    try destruct s1; try destruct s2; cbn; try reflexivity;
    rewrite (Z.compare_antisym e2 e1);
    destruct (e2 ?= e1); cbn; try reflexivity;
    change (Pos.compare_cont Eq m1 m2) with (Pos.compare m1 m2);
    change (Pos.compare_cont Eq m2 m1) with (Pos.compare m2 m1);
    rewrite (Pos.compare_antisym m2 m1); try reflexivity;
    now rewrite CompOpp_involutive.
Qed.

Lemma SFltb_asym (f1 f2 : spec_float) :
  SFltb f1 f2 = true -> SFltb f2 f1 = false.
Proof.
  unfold SFltb; rewrite (SFcompare_antisym f1 f2).
  destruct (SFcompare f1 f2) as [[| |]|]; cbn; congruence.
Qed.

Lemma SFltb_trans (f1 f2 f3 : spec_float) :
  SFltb f1 f2 = true -> SFltb f2 f3 = true -> SFltb f1 f3 = true.
Proof.
  unfold SFltb.
  destruct f1 as [s1|s1| |s1 m1 e1], f2 as [s2|s2| |s2 m2 e2],
    f3 as [s3|s3| |s3 m3 e3];
    try destruct s1; try destruct s2; try destruct s3; cbn;
    try discriminate; try reflexivity;
    change (Pos.compare_cont Eq m1 m2) with (Pos.compare m1 m2);
    change (Pos.compare_cont Eq m2 m3) with (Pos.compare m2 m3);
    change (Pos.compare_cont Eq m1 m3) with (Pos.compare m1 m3);
    destruct (Z.compare_spec e1 e2), (Z.compare_spec e2 e3),
      (Z.compare_spec e1 e3); try lia; try discriminate; try reflexivity;
    destruct (Pos.compare_spec m1 m2), (Pos.compare_spec m2 m3),
      (Pos.compare_spec m1 m3); cbn; try lia; try discriminate;
      try reflexivity.
Qed.

Lemma binary64_order : PyFloatOrder float.
Proof.
  split; cbn [flt binary64]; intros *; rewrite !ltb_spec.
  - apply SFltb_asym.
  - apply SFltb_trans.
Qed.

#[export] Existing Instance binary64_order.

(** ** Claim C2 *)

(** C2, as stated, at position 20.0 > 12.5 and -20.0 < -12.5 with 16 bits:
    [float_to_uint] does not clamp, it returns 85195 and -19660, not the
    65535 and 0 of the limits. *)
Lemma float_to_uint_does_not_clamp :
  flt (F:=float) (P_MAX AK80_64) (lit 20.0) = true /\
  float_to_uint (F:=float) (lit 20.0) (P_MIN AK80_64) (P_MAX AK80_64) 16
  = Ok 85195 /\
  float_to_uint (F:=float) (P_MAX AK80_64) (P_MIN AK80_64) (P_MAX AK80_64) 16
  = Ok 65535 /\
  flt (F:=float) (- lit 20.0)%F (P_MIN AK80_64) = true /\
  float_to_uint (F:=float) (- lit 20.0)%F (P_MIN AK80_64) (P_MAX AK80_64) 16
  = Ok (-19660) /\
  float_to_uint (F:=float) (P_MIN AK80_64) (P_MIN AK80_64) (P_MAX AK80_64) 16
  = Ok 0 /\
  ~ (forall (v lo hi : float) (bits : Z),
       flt lo hi = true -> flt hi v = true ->
       float_to_uint v lo hi bits = float_to_uint hi lo hi bits).
Proof.
  repeat (split; [vm_compute; reflexivity|]).
  intros Hall.
  specialize (Hall (lit 20.0) (P_MIN AK80_64) (P_MAX AK80_64) 16
                eq_refl eq_refl).
  vm_compute in Hall; discriminate.
Qed.

(** C2, amended.  The clamp is [pack_cmd]'s: on the value it constrains
    with [max(min(v, max), min)] before it calls [float_to_uint], a setpoint
    above [max] converts as [max] does and one below [min] as [min] does,
    for every width and every range with [min < max], on doubles and in
    exact arithmetic alike. *)
Theorem pack_field_saturates
  {F : Type} `{PyFloatOrder F} (v lo hi : F) (bits : Z) :
  flt lo hi = true ->
  (flt hi v = true ->
   pack_field v lo hi bits = pack_field hi lo hi bits /\
   pack_field v lo hi bits = float_to_uint hi lo hi bits) /\
  (flt v lo = true ->
   pack_field v lo hi bits = pack_field lo lo hi bits /\
   pack_field v lo hi bits = float_to_uint lo lo hi bits).
Proof.
  intros Hlh; unfold pack_field; split; intros Hv.
  - now rewrite (constrain_above v lo hi Hlh Hv), (constrain_hi lo hi Hlh).
  - now rewrite (constrain_below v lo hi Hlh Hv), (constrain_lo lo hi Hlh).
Qed.

Lemma pack_field_saturates_witness :
  pack_field (F:=float) (lit 20.0) (P_MIN AK80_64) (P_MAX AK80_64) 16
  = Ok 65535 /\
  pack_field (F:=float) (- lit 20.0)%F (P_MIN AK80_64) (P_MAX AK80_64) 16
  = Ok 0.
Proof.
  assert (Hlh : flt (F:=float) (P_MIN AK80_64) (P_MAX AK80_64) = true)
    by (vm_compute; reflexivity).
  assert (Hhi : flt (F:=float) (P_MAX AK80_64) (lit 20.0) = true)
    by (vm_compute; reflexivity).
  assert (Hlo : flt (F:=float) (- lit 20.0)%F (P_MIN AK80_64) = true)
    by (vm_compute; reflexivity).
  destruct (pack_field_saturates (F:=float) (lit 20.0)
              (P_MIN AK80_64) (P_MAX AK80_64) 16 Hlh) as [Habove _].
  destruct (pack_field_saturates (F:=float) (- lit 20.0)%F
              (P_MIN AK80_64) (P_MAX AK80_64) 16 Hlh) as [_ Hbelow].
  split.
  - destruct (Habove Hhi) as [_ ->]; vm_compute; reflexivity.
  - destruct (Hbelow Hlo) as [_ ->]; vm_compute; reflexivity.
Defined.

(** ** Claim C3 *)



(** ** [unpack_reply], for any floats *)

(** The three raw fields of a reply fit their widths. *)
Lemma reply_fields_range (b1 b2 b3 b4 b5 : Z) :
  is_byte b1 -> is_byte b2 -> is_byte b3 -> is_byte b4 -> is_byte b5 ->
  0 <= Z.lor (Z.shiftl b1 8) b2 < 2 ^ 16 /\
  0 <= Z.lor (Z.shiftl b3 4) (Z.shiftr b4 4) < 2 ^ 12 /\
  0 <= Z.lor (Z.shiftl (Z.land b4 0xF) 8) b5 < 2 ^ 12.
Proof.
  unfold is_byte; intros H1 H2 H3 H4 H5.
  assert (H4h : 0 <= Z.shiftr b4 4 < 2 ^ 4).
  { rewrite Z.shiftr_div_pow2 by lia; change (2 ^ 4) with 16.
    split; [apply Z.div_pos; lia | apply Z.div_lt_upper_bound; lia]. }
  assert (H4l : 0 <= Z.land b4 0xF < 16).
  { change 0xF with (Z.ones 4); rewrite Z.land_ones by lia.
    apply Z.mod_pos_bound; reflexivity. }
  rewrite !lor_shiftl_add by (try assumption; lia).
  change (2 ^ 4) with 16 in *; change (2 ^ 8) with 256.
  change (2 ^ 16) with 65536; change (2 ^ 12) with 4096.
  lia.
Qed.

Section UnpackFacts.
Context {F : Type} `{PyFloatFacts F}.
Variable K : Limits F.

Lemma fdiv_lit_4095 (x : F) : fdiv x (lit 4095.0) = Ok (fquo x (lit 4095.0)).
Proof. unfold fdiv; now rewrite lit_4095_nonzero. Qed.

Lemma fdiv_lit_65535 (x : F) :
  fdiv x (lit 65535.0) = Ok (fquo x (lit 65535.0)).
Proof. unfold fdiv; now rewrite lit_65535_nonzero. Qed.

(** [uint_to_float] returns on every raw value of at most 16 bits. *)
Lemma uint_to_float_returns (n : Z) (lo hi : F) (bits : Z) :
  0 <= n < 2 ^ 16 -> exists x, uint_to_float n lo hi bits = Ok x.
Proof.
  intros Hn; unfold uint_to_float.
  destruct (float_of_int_16 n Hn) as [fx ->].
  rewrite fdiv_lit_4095, fdiv_lit_65535.
  destruct (bits =? 12); [eauto|]; destruct (bits =? 16); eauto.
Qed.

(** A reply of six bytes or more is decoded: the three raw fields are read
    off bytes 1 to 5 and converted, and only the telemetry is written. *)
Lemma unpack_reply_six (id : Z) (ext : bool) (b0 b1 b2 b3 b4 b5 : Z)
    (rest : list Z) (st : MotorState F) :
  is_byte b1 -> is_byte b2 -> is_byte b3 -> is_byte b4 -> is_byte b5 ->
  exists p v t : F,
    uint_to_float (Z.lor (Z.shiftl b1 8) b2) (P_MIN K) (P_MAX K) 16 = Ok p /\
    uint_to_float (Z.lor (Z.shiftl b3 4) (Z.shiftr b4 4))
      (V_MIN K) (V_MAX K) 12 = Ok v /\
    uint_to_float (Z.lor (Z.shiftl (Z.land b4 0xF) 8) b5)
      (- T_MAX K)%F (T_MAX K) 12 = Ok t /\
    unpack_reply K
      (Some {| arbitration_id := id;
               data := b0 :: b1 :: b2 :: b3 :: b4 :: b5 :: rest;
               is_extended_id := ext |}) st
    = (Ok true,
       {| p_in := p_in st; v_in := v_in st; kp_in := kp_in st;
          kd_in := kd_in st; t_in := t_in st;
          p_out := p; v_out := v; t_out := t |}).
Proof.
  intros H1 H2 H3 H4 H5.
  destruct (reply_fields_range b1 b2 b3 b4 b5 H1 H2 H3 H4 H5)
    as (Rp & Rv & Rt).
  assert (Rv' : 0 <= Z.lor (Z.shiftl b3 4) (Z.shiftr b4 4) < 2 ^ 16)
    by (change (2 ^ 12) with 4096 in Rv; change (2 ^ 16) with 65536; lia).
  assert (Rt' : 0 <= Z.lor (Z.shiftl (Z.land b4 0xF) 8) b5 < 2 ^ 16)
    by (change (2 ^ 12) with 4096 in Rt; change (2 ^ 16) with 65536; lia).
  destruct (uint_to_float_returns _ (P_MIN K) (P_MAX K) 16 Rp) as [p Ep].
  destruct (uint_to_float_returns _ (V_MIN K) (V_MAX K) 12 Rv') as [v Ev].
  destruct (uint_to_float_returns _ (- T_MAX K)%F (T_MAX K) 12 Rt')
    as [t Et].
  exists p, v, t; repeat split; try assumption.
  unfold unpack_reply, try_except; cbn [data].
  do 7 (rewrite bind_lift_ok with (a := _) by reflexivity).
  rewrite (bind_lift_ok _ _ _ _ Ep).
  unfold bind at 1; cbn [set_p_out modify].
  rewrite (bind_lift_ok _ _ _ _ Ev).
  unfold bind at 1; cbn [set_v_out modify p_in v_in kp_in kd_in t_in
                           p_out v_out t_out].
  rewrite (bind_lift_ok _ _ _ _ Et).
  reflexivity.
Qed.

End UnpackFacts.

(** *** The two instances have what the conversions need *)

Lemma exact_facts : PyFloatFacts Q.
Proof.
  split; [intros n _; eexists; reflexivity | reflexivity | reflexivity].
Qed.

#[export] Existing Instance exact_facts.

Lemma binary64_facts : PyFloatFacts float.
Proof.
  split; [|vm_compute; reflexivity|vm_compute; reflexivity].
  intros n Hn; cbn [float_of_int binary64]; unfold B64.float_of_int.
  replace (Z.abs n <? 2 ^ 53) with true; [eauto|].
  symmetry; apply Z.ltb_lt.
  change (2 ^ 16) with 65536 in Hn; change (2 ^ 53) with 9007199254740992.
  lia.
Qed.

#[export] Existing Instance binary64_facts.

(** In exact arithmetic [uint_to_float] is the decoder of the
    specification. *)
Lemma uint_to_float_decode (n : Z) (lo hi : Q) (bits : Z) :
  bits = 12 \/ bits = 16 ->
  exists x : Q,
    uint_to_float n lo hi bits = Ok x /\ (x == decode n lo hi bits)%Q.
Proof.
  intros [-> | ->]; eexists; (split; [reflexivity|]); unfold decode;
    cbn [fadd fmul fsub fquo lit exact];
    apply Qplus_comp; try reflexivity;
    apply Qmult_comp; reflexivity.
Qed.

(** ** Claim C4 *)

(** C4.  For every reply of at least six bytes, [unpack_reply] reads
    [position_raw = byte1 << 8 | byte2] (16 bits),
    [velocity_raw = byte3 << 4 | byte4 >> 4] (12 bits) and
    [torque_raw = (byte4 & 0xF) << 8 | byte5] (12 bits); it converts the
    position against [[P_MIN, P_MAX]] at 16 bits, the velocity against
    [[V_MIN, V_MAX]] at 12 bits and the torque against [[-T_MAX, T_MAX]] at
    12 bits, whatever [T_MIN] is, and writes the three results to the
    telemetry.  With the limits of [constants.py] these ranges are
    [[-12.5, 12.5]], [[-8, 8]] and [[-144, 144]]. *)
Theorem unpack_reply_layout :
  (forall (F : Type) (HF : PyFloat F) (HFF : PyFloatFacts F) (K : Limits F)
          (id : Z) (ext : bool) (b0 b1 b2 b3 b4 b5 : Z) (rest : list Z)
          (st : MotorState F),
     is_byte b1 -> is_byte b2 -> is_byte b3 -> is_byte b4 -> is_byte b5 ->
     let position_raw := Z.lor (Z.shiftl b1 8) b2 in
     let velocity_raw := Z.lor (Z.shiftl b3 4) (Z.shiftr b4 4) in
     let torque_raw := Z.lor (Z.shiftl (Z.land b4 0xF) 8) b5 in
     (0 <= position_raw < 2 ^ 16 /\ 0 <= velocity_raw < 2 ^ 12 /\
      0 <= torque_raw < 2 ^ 12) /\
     exists p v t : F,
       uint_to_float position_raw (P_MIN K) (P_MAX K) 16 = Ok p /\
       uint_to_float velocity_raw (V_MIN K) (V_MAX K) 12 = Ok v /\
       uint_to_float torque_raw (- T_MAX K)%F (T_MAX K) 12 = Ok t /\
       unpack_reply K
         (Some {| arbitration_id := id;
                  data := b0 :: b1 :: b2 :: b3 :: b4 :: b5 :: rest;
                  is_extended_id := ext |}) st
       = (Ok true,
          {| p_in := p_in st; v_in := v_in st; kp_in := kp_in st;
             kd_in := kd_in st; t_in := t_in st;
             p_out := p; v_out := v; t_out := t |}))
  /\
  (forall (id : Z) (ext : bool) (b0 b1 b2 b3 b4 b5 : Z) (rest : list Z)
          (st : MotorState Q),
     is_byte b1 -> is_byte b2 -> is_byte b3 -> is_byte b4 -> is_byte b5 ->
     exists st' : MotorState Q,
       unpack_reply AK80_64
         (Some {| arbitration_id := id;
                  data := b0 :: b1 :: b2 :: b3 :: b4 :: b5 :: rest;
                  is_extended_id := ext |}) st
       = (Ok true, st') /\
       (p_out st' == decode (Z.lor (Z.shiftl b1 8) b2) (-12.5) 12.5 16 /\
        v_out st'
        == decode (Z.lor (Z.shiftl b3 4) (Z.shiftr b4 4)) (-8.0) 8.0 12 /\
        t_out st'
        == decode (Z.lor (Z.shiftl (Z.land b4 0xF) 8) b5) (-144.0) 144.0 12)%Q).
Proof.
  split.
  - intros F HF HFF K id ext b0 b1 b2 b3 b4 b5 rest st H1 H2 H3 H4 H5.
    cbv zeta; split.
    + now apply reply_fields_range.
    + now apply unpack_reply_six.
  - intros id ext b0 b1 b2 b3 b4 b5 rest st H1 H2 H3 H4 H5.
    destruct (unpack_reply_six (F:=Q) AK80_64 id ext b0 b1 b2 b3 b4 b5 rest st
                H1 H2 H3 H4 H5) as (p & v & t & Ep & Ev & Et & E).
    eexists; split; [exact E|]; cbn [p_out v_out t_out].
    destruct (uint_to_float_decode (Z.lor (Z.shiftl b1 8) b2)
                (P_MIN AK80_64) (P_MAX AK80_64) 16 (or_intror eq_refl))
      as (p' & Ep' & Dp).
    destruct (uint_to_float_decode (Z.lor (Z.shiftl b3 4) (Z.shiftr b4 4))
                (V_MIN AK80_64) (V_MAX AK80_64) 12 (or_introl eq_refl))
      as (v' & Ev' & Dv).
    destruct (uint_to_float_decode (Z.lor (Z.shiftl (Z.land b4 0xF) 8) b5)
                (- T_MAX AK80_64)%F (T_MAX AK80_64) 12 (or_introl eq_refl))
      as (t' & Et' & Dt).
    rewrite Ep in Ep'; rewrite Ev in Ev'; rewrite Et in Et'.
    injection Ep' as ->; injection Ev' as ->; injection Et' as ->.
    split; [exact Dp | split; [exact Dv | exact Dt]].
Qed.

Lemma unpack_reply_layout_witness :
  exists p v t : float,
    unpack_reply AK80_64 (Some test_reply) MotorState_init
    = (Ok true,
       {| p_in := lit 0.0; v_in := lit 0.0; kp_in := lit 0.0;
          kd_in := lit 0.50; t_in := lit 0.0;
          p_out := p; v_out := v; t_out := t |}).
Proof.
  assert (Hb : is_byte 0x80 /\ is_byte 0x00 /\ is_byte 0x08)
    by (unfold is_byte; lia).
  destruct Hb as (H80 & H00 & H08).
  destruct (proj1 unpack_reply_layout float binary64 binary64_facts AK80_64
              CONTROLLER_ID false 0x00 0x80 0x00 0x08 0x00 0x08 [0x00; 0x00]
              MotorState_init H80 H00 H08 H00 H08)
    as (_ & p & v & t & _ & _ & _ & E).
  exists p, v, t; exact E.
Defined.

(** ** Claim C5 *)

(** C5.  For each of the five channels of the range table and both widths
    12 and 16, in exact arithmetic and on doubles: [float_to_uint] sends
    [min] to 0 and [max] to [2^bits - 1] (4095 and 65535), and
    [uint_to_float] sends the raw value of [min] back to [min] exactly. *)
Theorem limits_convert_exactly :
  Forall (fun c : Q * Q => Forall (endpoints_exact Qeq c) widths)
    (channels AK80_64) /\
  Forall (fun c : float * float => Forall (endpoints_exact float_eq c) widths)
    (channels AK80_64) /\
  map full_scale widths = [4095; 65535].
Proof.
  split; [|split; [|reflexivity]].
  - repeat (apply Forall_cons || apply Forall_nil);
      do 4 (split; [reflexivity|]);
      do 2 eexists; (split; [reflexivity|split; [reflexivity|]]);
      reflexivity.
  - repeat (apply Forall_cons || apply Forall_nil);
      do 4 (split; [vm_compute; reflexivity|]);
      do 2 eexists;
      (split; [vm_compute; reflexivity|split; [vm_compute; reflexivity|]]);
      vm_compute; reflexivity.
Qed.

(** ** Claim C6 *)




(** ** Claim C7 *)

(** A reply of fewer than six bytes: the first missing byte raises
    [IndexError] before anything is written, and the bare [except] turns it
    into [False]. *)
Lemma unpack_reply_short {F : Type} `{PyFloat F} (K : Limits F)
    (id : Z) (ext : bool) (d : list Z) (st : MotorState F) :
  (List.length d < 6)%nat ->
  unpack_reply K
    (Some {| arbitration_id := id; data := d; is_extended_id := ext |}) st
  = (Ok false, st).
Proof.
  intros Hlen.
  destruct d as [|b0 [|b1 [|b2 [|b3 [|b4 [|b5 rest]]]]]];
    try reflexivity.
  cbn [List.length] in Hlen; lia.
Qed.

(** C7.  On a message the bus delivers (or on [None]) [unpack_reply] never
    raises: it returns [True] or [False].  It returns [False] if and only if
    the message is [None] or its data has fewer than six bytes, and then the
    motor state - the three telemetry fields in particular - is exactly what
    it was before the call. *)
Theorem unpack_reply_fails_iff_short
  {F : Type} `{PyFloatFacts F} (K : Limits F)
  (msg : option Message) (st : MotorState F) :
  match msg with Some m => wf_message m | None => True end ->
  (fst (unpack_reply K msg st) = Ok true \/
   fst (unpack_reply K msg st) = Ok false) /\
  (fst (unpack_reply K msg st) = Ok false <->
   msg = None \/
   exists m, msg = Some m /\ (List.length (data m) < 6)%nat) /\
  (fst (unpack_reply K msg st) = Ok false ->
   snd (unpack_reply K msg st) = st /\
   p_out (snd (unpack_reply K msg st)) = p_out st /\
   v_out (snd (unpack_reply K msg st)) = v_out st /\
   t_out (snd (unpack_reply K msg st)) = t_out st).
Proof.
  intros Hwf.
  destruct msg as [[id d ext]|].
  - destruct (Nat.lt_ge_cases (List.length d) 6) as [Hshort|Hlong].
    + rewrite (unpack_reply_short K id ext d st Hshort); cbn [fst snd].
      split; [now right|]. split; [|now auto].
      split; [|reflexivity].
      intros _; right; eexists; split; [reflexivity|exact Hshort].
    + destruct d as [|b0 [|b1 [|b2 [|b3 [|b4 [|b5 rest]]]]]];
        try (cbn [List.length] in Hlong; lia).
      unfold wf_message in Hwf; cbn [data] in Hwf.
      inversion_clear Hwf as [|? ? _ Hw1].
      inversion_clear Hw1 as [|? ? H1 Hw2].
      inversion_clear Hw2 as [|? ? H2 Hw3].
      inversion_clear Hw3 as [|? ? H3 Hw4].
      inversion_clear Hw4 as [|? ? H4 Hw5].
      inversion_clear Hw5 as [|? ? H5 _].
      destruct (unpack_reply_six K id ext b0 b1 b2 b3 b4 b5 rest st
                  H1 H2 H3 H4 H5) as (p & v & t & _ & _ & _ & ->).
      cbn [fst snd]; split; [now left|]. split.
      * split; [discriminate|].
        intros [Hnone | (m & Hm & Hlen)]; [discriminate|].
        injection Hm as <-; cbn [data List.length] in Hlen; lia.
      * discriminate.
  - cbn [unpack_reply ret fst snd].
    split; [now right|]. split; [|now auto].
    split; [now left | reflexivity].
Qed.

Lemma unpack_reply_fails_iff_short_witness :
  unpack_reply (F:=float) AK80_64
    (Some (frame [0x00; 0x80; 0x00; 0x08; 0x00])) golden_state
  = (Ok false, golden_state).
Proof.
  assert (Hwf : wf_message (frame [0x00; 0x80; 0x00; 0x08; 0x00]))
    by (repeat constructor; unfold is_byte; lia).
  destruct (unpack_reply_fails_iff_short (F:=float) AK80_64
              (Some (frame [0x00; 0x80; 0x00; 0x08; 0x00])) golden_state Hwf)
    as (_ & [_ Hiff] & Hsame).
  assert (Hfalse :
            fst (unpack_reply (F:=float) AK80_64
                   (Some (frame [0x00; 0x80; 0x00; 0x08; 0x00])) golden_state)
            = Ok false).
  { apply Hiff; right; eexists; split; [reflexivity|].
    cbn [frame data List.length]; lia. }
  destruct (Hsame Hfalse) as [Hst _].
  rewrite (surjective_pairing (unpack_reply _ _ _)).
  now rewrite Hfalse, Hst.
Defined.

(** ** Claim C8 *)

(** C8.  On a bus, [enter_mode], [exit_mode] and [zero_position] each hand
    one frame to [bus.send] and return whether it was taken: a standard
    (not extended) frame addressed to 0x17 whose eight bytes are seven
    0xFF followed by 0xFC, 0xFD and 0xFE respectively; [enter_mode] sends
    exactly [FF FF FF FF FF FF FF FC].  Without a bus they return [False]
    and send nothing. *)
Theorem mode_commands_frames (b : Bus) :
  (enter_mode (Some b)
   = (Ok (negb (send_raises b (frame enter_payload))),
      Some (record_send b (frame enter_payload))) /\
   exit_mode (Some b)
   = (Ok (negb (send_raises b (frame exit_payload))),
      Some (record_send b (frame exit_payload))) /\
   zero_position (Some b)
   = (Ok (negb (send_raises b (frame zero_payload))),
      Some (record_send b (frame zero_payload)))) /\
  (enter_mode None = (Ok false, None) /\
   exit_mode None = (Ok false, None) /\
   zero_position None = (Ok false, None)) /\
  (enter_payload = repeat 0xFF 7 ++ [0xFC] /\
   exit_payload = repeat 0xFF 7 ++ [0xFD] /\
   zero_payload = repeat 0xFF 7 ++ [0xFE]) /\
  (forall payload,
     arbitration_id (frame payload) = 0x17 /\
     is_extended_id (frame payload) = false /\
     data (frame payload) = payload) /\
  data (frame enter_payload)
  = [0xFF; 0xFF; 0xFF; 0xFF; 0xFF; 0xFF; 0xFF; 0xFC].
Proof.
  split; [|split; [|split; [|split]]].
  - unfold enter_mode, exit_mode, zero_position, try_except, bind, gets,
      bus_send, ret; cbn.
    fold enter_payload exit_payload zero_payload.
    fold (frame enter_payload) (frame exit_payload) (frame zero_payload).
    destruct (send_raises b (frame enter_payload)),
      (send_raises b (frame exit_payload)),
      (send_raises b (frame zero_payload)); repeat split.
  - repeat split.
  - repeat split.
  - intros payload; repeat split.
  - reflexivity.
Qed.

(** ** Claim C9 *)

(** C9.  While the scheduler is not running: if the text of the interval
    field reads as a number below 0.01, [toggle_continuous] starts the
    scheduler with exactly 0.01 - one new [Clock] event with that interval,
    kept in [continuous_event] - raises nothing and logs the start at 0.01,
    not an error; and [stop_continuous] returns having changed nothing. *)
Theorem scheduler_floor_and_idle_stop
  {F : Type} `{PyFloat F} (float_of_str : string -> result F) (app : App F) :
  continuous_active app = false ->
  (forall x : F,
     float_of_str (continuous_checkbox_text app) = Ok x ->
     flt x (lit 0.01) = true ->
     toggle_continuous float_of_str app
     = (Ok tt,
        {| continuous_active := true;
           continuous_event := Some (clock_next_id app);
           continuous_checkbox_text := continuous_checkbox_text app;
           continuous_button_text := "Stop Continuous";
           continuous_button_background_color := [0.7; 0.2; 0.2; 1]%Q;
           log_lines := log_lines app ++ [Started_continuous (lit 0.01)];
           clock_events :=
             clock_events app ++
             [{| event_id := clock_next_id app;
                 event_interval := lit 0.01 |}];
           clock_next_id := S (clock_next_id app) |})) /\
  stop_continuous app = (Ok tt, app).
Proof.
  intros Hidle; split.
  - intros x Hparse Hlow.
    unfold toggle_continuous.
    rewrite (bind_ok _ _ app false app)
      by (unfold gets; now rewrite Hidle).
    unfold try_except_ValueError.
    rewrite (bind_ok _ _ app (continuous_checkbox_text app) app)
      by reflexivity.
    rewrite (bind_lift_ok _ _ _ _ Hparse).
    rewrite Hlow.
    reflexivity.
  - unfold stop_continuous.
    rewrite (bind_ok _ _ app false app)
      by (unfold gets; now rewrite Hidle).
    reflexivity.
Qed.

Lemma scheduler_floor_and_idle_stop_witness :
  let app : App float :=
    {| continuous_active := false;
       continuous_event := None;
       continuous_checkbox_text := "0.001";
       continuous_button_text := "Start Continuous";
       continuous_button_background_color := [0.2; 0.7; 0.2; 1]%Q;
       log_lines := [];
       clock_events := [];
       clock_next_id := 0 |} in
  clock_events
    (snd (toggle_continuous (fun _ => Ok (lit 0.001)) app))
  = [{| event_id := 0%nat; event_interval := lit 0.01 |}] /\
  stop_continuous app = (Ok tt, app).
Proof.
  intros app.
  destruct (scheduler_floor_and_idle_stop (fun _ => Ok (lit 0.001)) app
              eq_refl) as [Hstart Hstop].
  split; [|exact Hstop].
  rewrite (Hstart (lit 0.001) eq_refl ltac:(vm_compute; reflexivity)).
  reflexivity.
Defined.

(** ** Frame conditions *)

Section Preservation.
Context {S : Type} (R : S -> S -> Prop).
Hypothesis R_refl : forall s, R s s.
Hypothesis R_trans : forall s1 s2 s3, R s1 s2 -> R s2 s3 -> R s1 s3.

Lemma preserves_ret {A} (a : A) : preserves R (ret a).
Proof. intros s; apply R_refl. Qed.

Lemma preserves_lift {A} (r : result A) : preserves R (lift r).
Proof. intros s; apply R_refl. Qed.

Lemma preserves_gets {A} (f : S -> A) : preserves R (gets f).
Proof. intros s; apply R_refl. Qed.

Lemma preserves_bind {A B} (c : M S A) (k : A -> M S B) :
  preserves R c -> (forall a, preserves R (k a)) -> preserves R (bind c k).
Proof.
  intros Hc Hk s; unfold bind.
  specialize (Hc s); destruct (c s) as [[a|e] s']; cbn [snd] in *.
  - exact (R_trans _ _ _ Hc (Hk a s')).
  - exact Hc.
Qed.

Lemma preserves_try_except {A} (body handler : M S A) :
  preserves R body -> preserves R handler ->
  preserves R (try_except body handler).
Proof.
  intros Hb Hh s; unfold try_except.
  specialize (Hb s); destruct (body s) as [[a|e] s']; cbn [snd] in *.
  - exact Hb.
  - exact (R_trans _ _ _ Hb (Hh s')).
Qed.

End Preservation.

Section FrameConditions.
Context {F : Type} `{PyFloat F}.
Variable K : Limits F.

Lemma same_motor_state_refl (w : World F) : same_motor_state w w.
Proof. reflexivity. Qed.

Lemma same_motor_state_trans (w1 w2 w3 : World F) :
  same_motor_state w1 w2 -> same_motor_state w2 w3 -> same_motor_state w1 w3.
Proof. unfold same_motor_state; congruence. Qed.

Lemma same_setpoints_refl (st : MotorState F) : same_setpoints st st.
Proof. repeat split. Qed.

Lemma same_setpoints_trans (s1 s2 s3 : MotorState F) :
  same_setpoints s1 s2 -> same_setpoints s2 s3 -> same_setpoints s1 s3.
Proof. unfold same_setpoints; intuition congruence. Qed.

Lemma on_bus_same_motor_state {A} (c : M (option Bus) A) :
  preserves same_motor_state (on_bus (F:=F) c).
Proof.
  intros w; unfold on_bus; destruct (c (bus w)); reflexivity.
Qed.

(** [pack_cmd] never writes the motor state. *)
Lemma pack_cmd_same_motor_state : preserves same_motor_state (pack_cmd K).
Proof.
  pose proof same_motor_state_refl as Hr.
  pose proof same_motor_state_trans as Ht.
  unfold pack_cmd.
  apply preserves_bind; [assumption|now apply preserves_gets|].
  intros [b|]; [|now apply preserves_ret].
  do 14 (apply preserves_bind;
          [assumption
          |first [now apply preserves_gets | now apply preserves_lift]
          |intros ?]).
  apply preserves_try_except; [assumption| |now apply preserves_ret].
  apply preserves_bind; [assumption|apply on_bus_same_motor_state|].
  intros _; now apply preserves_ret.
Qed.

(** [unpack_reply] never writes a setpoint. *)
Lemma unpack_reply_same_setpoints (msg : option Message) :
  preserves same_setpoints (unpack_reply K msg).
Proof.
  pose proof same_setpoints_refl as Hr.
  pose proof same_setpoints_trans as Ht.
  destruct msg as [m|]; [|now apply preserves_ret].
  unfold unpack_reply.
  apply preserves_try_except; [assumption| |now apply preserves_ret].
  repeat (apply preserves_bind;
          [assumption
          |first [now apply preserves_lift
                 |intros st; repeat split]
          |intros ?]).
  now apply preserves_ret.
Qed.

(** What [pack_cmd] does to the bus: nothing, or one [send]. *)
Lemma pack_cmd_bus_effect (w : World F) :
  snd (pack_cmd K w) = w \/
  exists (b : Bus) (payload : list Z),
    bus w = Some b /\
    snd (pack_cmd K w)
    = {| bus := Some (record_send b (frame payload));
         motor_state := motor_state w |}.
Proof.
  destruct w as [[b|] st]; [|now left].
  unfold pack_cmd, bind, gets, lift, try_except, on_bus, bus_send, ret;
    cbn [bus motor_state].
  repeat match goal with
         | |- context [match ?r with Ok _ => _ | Raise _ => _ end] =>
             destruct r; [|now left]
         end.
  right; eexists; eexists; split; [reflexivity|].
  unfold frame.
  match goal with
  | |- context [send_raises b ?m] => destruct (send_raises b m)
  end; reflexivity.
Qed.

End FrameConditions.

(** ** Claim C10 *)

(** C10.  For every bus and motor state, whatever [pack_cmd] returns or
    raises, the motor state after it is the one before it - the five
    setpoints and the three telemetry fields alike - and the bus is either
    untouched or has received one [send] of one frame to the controller.
    For every message and motor state, whatever [unpack_reply] returns, the
    five setpoints [p_in], [v_in], [kp_in], [kd_in] and [t_in] are
    unchanged: at most [p_out], [v_out] and [t_out] are written. *)
Theorem frame_conditions {F : Type} `{PyFloat F} (K : Limits F) :
  (forall w : World F,
     motor_state (snd (pack_cmd K w)) = motor_state w /\
     (snd (pack_cmd K w) = w \/
      exists (b : Bus) (payload : list Z),
        bus w = Some b /\
        snd (pack_cmd K w)
        = {| bus := Some (record_send b (frame payload));
             motor_state := motor_state w |})) /\
  (forall (msg : option Message) (st : MotorState F),
     let st' := snd (unpack_reply K msg st) in
     (p_in st' = p_in st /\ v_in st' = v_in st /\ kp_in st' = kp_in st /\
      kd_in st' = kd_in st /\ t_in st' = t_in st) /\
     st' = {| p_in := p_in st; v_in := v_in st; kp_in := kp_in st;
              kd_in := kd_in st; t_in := t_in st;
              p_out := p_out st'; v_out := v_out st'; t_out := t_out st' |}).
Proof.
  split.
  - intros w; split.
    + exact (pack_cmd_same_motor_state K w).
    + exact (pack_cmd_bus_effect K w).
  - intros msg st st'.
    pose proof (unpack_reply_same_setpoints K msg st) as Hsame.
    fold st' in Hsame; unfold same_setpoints in Hsame.
    split; [exact Hsame|].
    destruct Hsame as (E1 & E2 & E3 & E4 & E5).
    rewrite <- E1, <- E2, <- E3, <- E4, <- E5.
    now destruct st'.
Qed.

(** * Further properties of the conversions *)

(** ** Widths other than 12 and 16 *)

(** A width other than 12 and 16: [float_to_uint] returns 0 and
    [uint_to_float] returns 0.0, whatever the value and the range. *)
Theorem unsupported_width_gives_zero
  {F : Type} `{PyFloat F} (x lo hi : F) (n bits : Z) :
  bits <> 12 -> bits <> 16 ->
  float_to_uint x lo hi bits = Ok 0 /\
  uint_to_float n lo hi bits = Ok (lit 0.0).
Proof.
  intros H12 H16; unfold float_to_uint, uint_to_float.
  apply Z.eqb_neq in H12, H16; now rewrite H12, H16.
Qed.

Lemma unsupported_width_gives_zero_witness :
  float_to_uint (F:=float) (lit 5.0) (P_MIN AK80_64) (P_MAX AK80_64) 8 = Ok 0 /\
  uint_to_float (F:=float) 200 (P_MIN AK80_64) (P_MAX AK80_64) 8
  = Ok (lit 0.0).
Proof.
  apply (unsupported_width_gives_zero (F:=float)); discriminate.
Defined.

(** ** Truncation and the decoder, in exact arithmetic *)

Section ExactRoundTrip.
Local Open Scope Q_scope.









End ExactRoundTrip.

(** ** Round trips and monotonicity, in exact arithmetic *)

Section ExactCodec.
Local Open Scope Q_scope.



End ExactCodec.







(** ** The command frame keeps its fields apart *)





(** ** What [pack_cmd] reads *)

(** [pack_cmd] reads the motor state through the five constrained setpoints
    only: two states that agree on them - whatever their telemetry, and
    whatever the setpoints were before the clamp - make it return the same
    result and leave the bus the same, for every float type. *)
Theorem pack_cmd_reads_constrained
  {F : Type} `{PyFloat F} (K : Limits F) (b : option Bus)
  (st st' : MotorState F) :
  constrained K st = constrained K st' ->
  fst (pack_cmd K {| bus := b; motor_state := st |})
  = fst (pack_cmd K {| bus := b; motor_state := st' |}) /\
  bus (snd (pack_cmd K {| bus := b; motor_state := st |}))
  = bus (snd (pack_cmd K {| bus := b; motor_state := st' |})).
Proof.
  unfold constrained, constrain; intros E.
  injection E as Ep Ev Ekp Ekd Et.
  destruct b as [b|]; [|split; reflexivity].
  unfold pack_cmd, bind, gets, lift, try_except, on_bus, bus_send, ret;
    cbn [bus motor_state].
  rewrite Ep, Ev, Ekp, Ekd, Et.
  repeat match goal with
         | |- context [match ?r with Ok _ => _ | Raise _ => _ end] =>
             destruct r; [|split; reflexivity]
         end.
  match goal with
  | |- context [send_raises b ?m] => destruct (send_raises b m)
  end; split; reflexivity.
Qed.

Lemma pack_cmd_reads_constrained_witness :
  let st' : MotorState float :=
    {| p_in := lit 5.0; v_in := lit 2.0; kp_in := lit 900.0;
       kd_in := lit 2.0; t_in := lit 10.0;
       p_out := lit 3.0; v_out := lit 1.0; t_out := lit 7.0 |} in
  let st : MotorState float :=
    {| p_in := lit 5.0; v_in := lit 2.0; kp_in := lit 500.0;
       kd_in := lit 2.0; t_in := lit 10.0;
       p_out := lit 0.0; v_out := lit 0.0; t_out := lit 0.0 |} in
  bus (snd (pack_cmd AK80_64 {| bus := Some quiet_bus; motor_state := st |}))
  = bus (snd (pack_cmd AK80_64
                {| bus := Some quiet_bus; motor_state := st' |})).
Proof.
  intros st' st.
  assert (E : constrained AK80_64 st = constrained AK80_64 st')
    by (vm_compute; reflexivity).
  exact (proj2 (pack_cmd_reads_constrained AK80_64 (Some quiet_bus) st st' E)).
Defined.

(** ** The telemetry stays within the limits *)



(** ** Raw values through the doubles and back *)

Lemma all_below_spec (n : nat) (p : Z -> bool) :
  all_below n p = true -> forall k, 0 <= k < Z.of_nat n -> p k = true.
Proof.
  induction n as [|m IH]; intros Hall k Hk; [lia|].
  cbn [all_below] in Hall; apply andb_prop in Hall as [Hm Hrest].
  destruct (Z.eq_dec k (Z.of_nat m)) as [->|Hne]; [assumption|].
  apply IH; [assumption|lia].
Qed.

Lemma velocity_reencodes :
  all_below (Z.to_nat 4096)
    (reencodes (V_MIN AK80_64) (V_MAX AK80_64) 12) = true.
Proof. vm_compute; reflexivity. Qed.

Lemma torque_reencodes :
  all_below (Z.to_nat 4096)
    (reencodes (- T_MAX AK80_64)%F (T_MAX AK80_64) 12) = true.
Proof. vm_compute; reflexivity. Qed.

Lemma reencodes_spec (lo hi : float) (bits k : Z) :
  reencodes lo hi bits k = true ->
  exists (d : float) (k' : Z),
    uint_to_float k lo hi bits = Ok d /\
    float_to_uint d lo hi bits = Ok k' /\ (k' = k \/ k' = k - 1).
Proof.
  unfold reencodes.
  destruct (uint_to_float k lo hi bits) as [d|]; [|discriminate].
  destruct (float_to_uint d lo hi bits) as [k'|] eqn:E; [|discriminate].
  intros Hk; exists d, k'; split; [reflexivity|split; [exact E|]].
  apply orb_prop in Hk as [Hk|Hk]; apply Z.eqb_eq in Hk; auto.
Qed.

(** On doubles, with the limits of [constants.py]: every 12-bit raw
    velocity and every 12-bit raw torque, converted by [uint_to_float] as
    [unpack_reply] does and converted back by [float_to_uint], comes back
    as itself or as one less, and one less does happen: the raw velocity 1
    comes back as 0. *)
Theorem raw_round_trip_on_doubles :
  (forall k, 0 <= k < 4096 ->
     exists (d : float) (k' : Z),
       uint_to_float k (V_MIN AK80_64) (V_MAX AK80_64) 12 = Ok d /\
       float_to_uint d (V_MIN AK80_64) (V_MAX AK80_64) 12 = Ok k' /\
       (k' = k \/ k' = k - 1)) /\
  (forall k, 0 <= k < 4096 ->
     exists (d : float) (k' : Z),
       uint_to_float k (- T_MAX AK80_64)%F (T_MAX AK80_64) 12 = Ok d /\
       float_to_uint d (- T_MAX AK80_64)%F (T_MAX AK80_64) 12 = Ok k' /\
       (k' = k \/ k' = k - 1)) /\
  (exists d : float,
     uint_to_float 1 (V_MIN AK80_64) (V_MAX AK80_64) 12 = Ok d /\
     float_to_uint d (V_MIN AK80_64) (V_MAX AK80_64) 12 = Ok 0).
Proof.
  split; [|split].
  - intros k Hk; apply reencodes_spec.
    apply (all_below_spec _ _ velocity_reencodes).
    rewrite Z2Nat.id; lia.
  - intros k Hk; apply reencodes_spec.
    apply (all_below_spec _ _ torque_reencodes).
    rewrite Z2Nat.id; lia.
  - let d := eval vm_compute in
        (match uint_to_float (F:=float) 1 (V_MIN AK80_64) (V_MAX AK80_64) 12
         with Ok d => d | Raise _ => PrimFloat.zero end) in
    exists d.
    split; vm_compute; reflexivity.
Qed.

Lemma raw_round_trip_on_doubles_witness :
  exists (d : float) (k' : Z),
    uint_to_float 3904 (V_MIN AK80_64) (V_MAX AK80_64) 12 = Ok d /\
    float_to_uint d (V_MIN AK80_64) (V_MAX AK80_64) 12 = Ok k' /\
    (k' = 3904 \/ k' = 3904 - 1).
Proof.
  apply (proj1 raw_round_trip_on_doubles 3904); lia.
Defined.

(** ** Where [float_to_uint] returns *)



(** ** A NaN among the setpoints *)

Lemma is_nan_eq (x : float) : is_nan x = true -> x = PrimFloat.nan.
Proof.
  unfold is_nan; rewrite FloatAxioms.eqb_spec; intros Hx.
  rewrite <- (SF2Prim_Prim2SF x).
  destruct (Prim2SF x) as [s|s| |s m e] eqn:E.
  - now destruct s.
  - now destruct s.
  - reflexivity.
  - exfalso; revert Hx; unfold SFeqb; cbn.
    rewrite Z.compare_refl.
    change (Pos.compare_cont Eq m m) with (Pos.compare m m).
    rewrite Pos.compare_refl. now destruct s.
Qed.

Lemma nan_setpoint_raises :
  float_to_uint (constrain PrimFloat.nan (P_MIN AK80_64) (P_MAX AK80_64))
    (P_MIN AK80_64) (P_MAX AK80_64) 16 = Raise ValueError /\
  float_to_uint (constrain PrimFloat.nan (V_MIN AK80_64) (V_MAX AK80_64))
    (V_MIN AK80_64) (V_MAX AK80_64) 12 = Raise ValueError /\
  float_to_uint (constrain PrimFloat.nan (KP_MIN AK80_64) (KP_MAX AK80_64))
    (KP_MIN AK80_64) (KP_MAX AK80_64) 12 = Raise ValueError /\
  float_to_uint (constrain PrimFloat.nan (KD_MIN AK80_64) (KD_MAX AK80_64))
    (KD_MIN AK80_64) (KD_MAX AK80_64) 12 = Raise ValueError /\
  float_to_uint (constrain PrimFloat.nan (T_MIN AK80_64) (T_MAX AK80_64))
    (T_MIN AK80_64) (T_MAX AK80_64) 12 = Raise ValueError.
Proof. repeat split; vm_compute; reflexivity. Qed.

Lemma pack_cmd_conversion_raises (b : Bus) (st : MotorState float)
  (rp rv rkp rkd rt : result Z) :
  rp = float_to_uint (constrain (p_in st) (P_MIN AK80_64) (P_MAX AK80_64))
         (P_MIN AK80_64) (P_MAX AK80_64) 16 ->
  rv = float_to_uint (constrain (v_in st) (V_MIN AK80_64) (V_MAX AK80_64))
         (V_MIN AK80_64) (V_MAX AK80_64) 12 ->
  rkp = float_to_uint (constrain (kp_in st) (KP_MIN AK80_64) (KP_MAX AK80_64))
         (KP_MIN AK80_64) (KP_MAX AK80_64) 12 ->
  rkd = float_to_uint (constrain (kd_in st) (KD_MIN AK80_64) (KD_MAX AK80_64))
         (KD_MIN AK80_64) (KD_MAX AK80_64) 12 ->
  rt = float_to_uint (constrain (t_in st) (T_MIN AK80_64) (T_MAX AK80_64))
         (T_MIN AK80_64) (T_MAX AK80_64) 12 ->
  is_ok rp && is_ok rv && is_ok rkp && is_ok rkd && is_ok rt = false ->
  exists e,
    pack_cmd AK80_64 {| bus := Some b; motor_state := st |}
    = (Raise e, {| bus := Some b; motor_state := st |}).
Proof.
  intros Ep Ev Ekp Ekd Et Hbad.
  unfold pack_cmd, bind, gets, lift; cbn [bus motor_state fst snd].
  unfold constrain in *.
  rewrite <- Ep.
  destruct rp as [kp'|ep]; [|eauto].
  rewrite <- Ev.
  destruct rv as [kv'|ev]; [|eauto].
  rewrite <- Ekp.
  destruct rkp as [kkp'|ekp]; [|eauto].
  rewrite <- Ekd.
  destruct rkd as [kkd'|ekd]; [|eauto].
  rewrite <- Et.
  destruct rt as [kt'|et]; [|eauto].
  discriminate.
Qed.

(** On doubles, with the limits of [constants.py] and a bus present: if any
    of the five setpoints is a NaN, [pack_cmd] raises, sends nothing and
    changes nothing; the exception is [ValueError] when the position is the
    NaN. *)
Theorem pack_cmd_raises_on_nan (b : Bus) (st : MotorState float) :
  has_nan_setpoint st = true ->
  exists e : exn,
    pack_cmd AK80_64 {| bus := Some b; motor_state := st |}
    = (Raise e, {| bus := Some b; motor_state := st |}) /\
    (is_nan (p_in st) = true -> e = ValueError).
Proof.
  intros Hnan.
  destruct nan_setpoint_raises as (Np & Nv & Nkp & Nkd & Nt).
  destruct (is_nan (p_in st)) eqn:Hp.
  - exists ValueError; split; [|reflexivity].
    apply is_nan_eq in Hp.
    unfold pack_cmd, bind, gets, lift; cbn [bus motor_state fst snd].
    unfold constrain in Np; now rewrite Hp, Np.
  - destruct (pack_cmd_conversion_raises b st _ _ _ _ _
                eq_refl eq_refl eq_refl eq_refl eq_refl) as [e He];
      [|exists e; split; [exact He|discriminate]].
    unfold has_nan_setpoint in Hnan; rewrite Hp in Hnan.
    cbn [orb] in Hnan.
    repeat (apply orb_prop in Hnan as [Hnan|Hnan]);
      apply is_nan_eq in Hnan; rewrite Hnan.
    + rewrite Nv; cbn [is_ok]; now rewrite andb_false_r.
    + rewrite Nkp; cbn [is_ok]; now rewrite andb_false_r.
    + rewrite Nkd; cbn [is_ok]; now rewrite andb_false_r.
    + rewrite Nt; cbn [is_ok]; now rewrite andb_false_r.
Qed.

Lemma pack_cmd_raises_on_nan_witness :
  exists e : exn,
    pack_cmd AK80_64 {| bus := Some quiet_bus; motor_state := nan_state |}
    = (Raise e, {| bus := Some quiet_bus; motor_state := nan_state |}) /\
    (is_nan (p_in nan_state) = true -> e = ValueError).
Proof.
  apply (pack_cmd_raises_on_nan quiet_bus nan_state).
  vm_compute; reflexivity.
Defined.

(** * Further properties of the scheduler *)

(** ** Every outcome of a press *)

(** While the scheduler is not running, [toggle_continuous] does one of
    three things.  If the text reads as a number, it starts one timer and
    returns; the interval of the timer is not below 0.01, and it is the
    number read when that is not below 0.01.  If reading the text raises
    [ValueError], it logs the invalid interval, starts nothing and returns.
    Any other exception leaves the application as it was and is raised. *)
Theorem toggle_continuous_outcomes
  {F : Type} `{PyFloatOrder F} (float_of_str : string -> result F)
  (app : App F) :
  continuous_active app = false ->
  match float_of_str (continuous_checkbox_text app) with
  | Ok x =>
      exists interval : F,
        flt interval (lit 0.01) = false /\
        (flt x (lit 0.01) = false -> interval = x) /\
        toggle_continuous float_of_str app
        = (Ok tt,
           {| continuous_active := true;
              continuous_event := Some (clock_next_id app);
              continuous_checkbox_text := continuous_checkbox_text app;
              continuous_button_text := "Stop Continuous";
              continuous_button_background_color := [0.7; 0.2; 0.2; 1]%Q;
              log_lines := log_lines app ++ [Started_continuous interval];
              clock_events :=
                clock_events app ++
                [{| event_id := clock_next_id app;
                    event_interval := interval |}];
              clock_next_id := S (clock_next_id app) |})
  | Raise ValueError =>
      toggle_continuous float_of_str app
      = (Ok tt,
         {| continuous_active := false;
            continuous_event := continuous_event app;
            continuous_checkbox_text := continuous_checkbox_text app;
            continuous_button_text := continuous_button_text app;
            continuous_button_background_color :=
              continuous_button_background_color app;
            log_lines := log_lines app ++ [Invalid_interval];
            clock_events := clock_events app;
            clock_next_id := clock_next_id app |})
  | Raise e => toggle_continuous float_of_str app = (Raise e, app)
  end.
Proof.
  intros Hidle.
  unfold toggle_continuous.
  rewrite (bind_ok _ _ app false app)
    by (unfold gets; now rewrite Hidle).
  unfold try_except_ValueError.
  rewrite (bind_ok _ _ app (continuous_checkbox_text app) app)
    by reflexivity.
  destruct (float_of_str (continuous_checkbox_text app)) as [x|e].
  - rewrite (bind_lift_ok (Ok x) _ _ x eq_refl).
    destruct (flt x (lit 0.01)) eqn:Hlow.
    + exists (lit 0.01); split; [apply flt_irrefl|].
      split; [discriminate|reflexivity].
    + exists x; split; [exact Hlow|]; split; reflexivity.
  - unfold bind at 1, lift at 1.
    destruct e; try reflexivity.
    unfold log, modify; now rewrite Hidle.
Qed.

Lemma toggle_continuous_outcomes_witness :
  let app : App float :=
    {| continuous_active := false;
       continuous_event := None;
       continuous_checkbox_text := "fast";
       continuous_button_text := "Start Continuous";
       continuous_button_background_color := [0.2; 0.7; 0.2; 1]%Q;
       log_lines := [];
       clock_events := [];
       clock_next_id := 0 |} in
  toggle_continuous (fun _ => Raise ValueError) app
  = (Ok tt,
     {| continuous_active := false;
        continuous_event := None;
        continuous_checkbox_text := "fast";
        continuous_button_text := "Start Continuous";
        continuous_button_background_color := [0.2; 0.7; 0.2; 1]%Q;
        log_lines := [Invalid_interval];
        clock_events := [];
        clock_next_id := 0 |}).
Proof.
  intros app.
  exact (toggle_continuous_outcomes (F:=float)
           (fun _ => Raise ValueError) app eq_refl).
Defined.

(** ** A second press undoes the first *)

Lemma cancel_newest {F} (evs : list (ClockEvent F)) (n : nat) (x : F) :
  forallb (fun ev => Nat.ltb (event_id ev) n) evs = true ->
  filter (fun ev => negb (Nat.eqb (event_id ev) n))
    (evs ++ [{| event_id := n; event_interval := x |}]) = evs.
Proof.
  intros Hfresh; rewrite filter_app; cbn [filter event_id].
  rewrite Nat.eqb_refl; cbn [negb]; rewrite app_nil_r.
  induction evs as [|ev evs IH]; [reflexivity|].
  cbn [forallb] in Hfresh; apply andb_prop in Hfresh as [Hev Hrest].
  cbn [filter].
  apply Nat.ltb_lt in Hev.
  assert (Hne : Nat.eqb (event_id ev) n = false) by (apply Nat.eqb_neq; lia).
  rewrite Hne; cbn [negb]; now rewrite IH.
Qed.

(** While the scheduler is not running and the [Clock] holds only events
    made before the next one: if the text reads as a number, two presses
    of the button - [toggle_continuous] twice - both return, and leave the
    [Clock] with the events it had, the scheduler idle with no event kept,
    the button as [stop_continuous] sets it, and the start and the stop in
    the log. *)
Theorem start_then_stop
  {F : Type} `{PyFloat F} (float_of_str : string -> result F)
  (app : App F) (x : F) :
  continuous_active app = false ->
  clock_fresh app = true ->
  float_of_str (continuous_checkbox_text app) = Ok x ->
  exists app1 : App F,
    toggle_continuous float_of_str app = (Ok tt, app1) /\
    continuous_active app1 = true /\
    toggle_continuous float_of_str app1
    = (Ok tt,
       {| continuous_active := false;
          continuous_event := None;
          continuous_checkbox_text := continuous_checkbox_text app;
          continuous_button_text := "Start Continuous";
          continuous_button_background_color := [0.2; 0.7; 0.2; 1]%Q;
          log_lines :=
            log_lines app ++
            [Started_continuous (if flt x (lit 0.01) then lit 0.01 else x);
             Stopped_continuous];
          clock_events := clock_events app;
          clock_next_id := S (clock_next_id app) |}).
Proof.
  intros Hidle Hfresh Hparse.
  eexists; split; [|split].
  - unfold toggle_continuous.
    rewrite (bind_ok _ _ app false app)
      by (unfold gets; now rewrite Hidle).
    unfold try_except_ValueError.
    rewrite (bind_ok _ _ app (continuous_checkbox_text app) app)
      by reflexivity.
    rewrite (bind_lift_ok _ _ _ _ Hparse).
    reflexivity.
  - reflexivity.
  - unfold toggle_continuous, stop_continuous,
      set_continuous_active, set_continuous_event, set_continuous_button,
      log, ClockEvent_cancel, bind, gets, modify, ret;
      cbn [continuous_active continuous_event continuous_checkbox_text
           continuous_button_text continuous_button_background_color
           log_lines clock_events clock_next_id].
    rewrite (cancel_newest _ _ _ Hfresh), <- app_assoc.
    reflexivity.
Qed.

Lemma start_then_stop_witness :
  let app : App float :=
    {| continuous_active := false;
       continuous_event := None;
       continuous_checkbox_text := "0.1";
       continuous_button_text := "Start Continuous";
       continuous_button_background_color := [1; 1; 1; 1]%Q;
       log_lines := [];
       clock_events := [{| event_id := 3%nat; event_interval := lit 0.5 |}];
       clock_next_id := 4 |} in
  exists app1 : App float,
    toggle_continuous (fun _ => Ok (lit 0.1)) app = (Ok tt, app1) /\
    continuous_active app1 = true /\
    toggle_continuous (fun _ => Ok (lit 0.1)) app1
    = (Ok tt,
       {| continuous_active := false;
          continuous_event := None;
          continuous_checkbox_text := "0.1";
          continuous_button_text := "Start Continuous";
          continuous_button_background_color := [0.2; 0.7; 0.2; 1]%Q;
          log_lines := [Started_continuous (lit 0.1); Stopped_continuous];
          clock_events :=
            [{| event_id := 3%nat; event_interval := lit 0.5 |}];
          clock_next_id := 5 |}).
Proof.
  intros app.
  exact (start_then_stop (F:=float) (fun _ => Ok (lit 0.1)) app (lit 0.1)
           eq_refl eq_refl eq_refl).
Defined.

(** ** Never two timers *)

Lemma one_timer_kept
  {F : Type} `{PyFloat F} (float_of_str : string -> result F) (app : App F) :
  one_timer app = true ->
  one_timer (snd (toggle_continuous float_of_str app)) = true /\
  fst (stop_continuous app) = Ok tt /\
  one_timer (snd (stop_continuous app)) = true /\
  continuous_active (snd (stop_continuous app)) = false /\
  clock_events (snd (stop_continuous app)) = [].
Proof.
  intros Hone.
  destruct app as [active event text btext bcolor lines events next].
  unfold one_timer in Hone;
    cbn [continuous_active continuous_event clock_events] in Hone.
  destruct active, event as [e|], events as [|ev [|ev' events]];
    try discriminate Hone;
    unfold one_timer, toggle_continuous, stop_continuous,
      try_except_ValueError, set_continuous_active, set_continuous_event,
      set_continuous_button, log, ClockEvent_cancel,
      Clock_schedule_interval, bind, gets, modify, lift, ret;
    cbn [continuous_active continuous_event continuous_checkbox_text
         continuous_button_text continuous_button_background_color
         log_lines clock_events clock_next_id fst snd filter event_id].
  - rewrite Hone; cbn [negb fst snd continuous_active continuous_event
                       clock_events].
    repeat split.
  - destruct (float_of_str text) as [x|[]];
      cbn [fst snd continuous_active continuous_event clock_events
           event_id app];
      rewrite ?Nat.eqb_refl; repeat split.
Qed.

(** ** [stop_continuous] returns *)

Lemma stop_continuous_returns {F} (app : App F) :
  fst (stop_continuous app) = Ok tt /\
  continuous_active (snd (stop_continuous app)) = false.
Proof.
  destruct app as [active event text btext bcolor lines events next].
  unfold stop_continuous, bind, gets; cbn [continuous_active].
  destruct active; [|split; reflexivity].
  destruct event; split; reflexivity.
Qed.

(** * Further properties of the application *)

Lemma MotorControlApp_eta {F} (a : MotorControlApp F) :
  a = app_with a {| bus := bus (world a);
                    motor_state := motor_state (world a) |}
        [] (scheduled_once a).
Proof.
  destruct a as [c [b st] th sp ci br ch w ps vs kps kds ts sd sch pr so sh].
  unfold app_with; cbn; now rewrite app_nil_r.
Qed.

(** ** Handlers without a connection *)

(** While the application is not connected, or has no bus, the three mode
    handlers, [on_send_command], [continuous_update] and the passes of
    [status_update_thread] return having changed nothing: no frame is sent,
    no setpoint is overwritten by a slider, nothing is printed. *)
Theorem handlers_need_connection
  {F : Type} `{PyFloat F} (K : Limits F) (a : MotorControlApp F) :
  connected_and_bus a = false ->
  on_enter_mode a = (Ok tt, a) /\
  on_exit_mode a = (Ok tt, a) /\
  on_zero_position a = (Ok tt, a) /\
  on_send_command K a = (Ok tt, a) /\
  continuous_update K a = (Ok tt, a) /\
  forall recvs, status_update_thread K recvs a = (Ok tt, a).
Proof.
  intros Hoff.
  repeat split;
    try (unfold on_enter_mode, on_exit_mode, on_zero_position,
           on_send_command, continuous_update;
         rewrite (bind_ok _ _ a false a)
           by (unfold gets; now rewrite Hoff);
         reflexivity).
  intros recvs; induction recvs as [|recv recvs IH]; [reflexivity|].
  cbn [status_update_thread].
  unfold bind at 1, gets at 1.
  destruct (stop_thread a); [reflexivity|].
  rewrite (bind_ok _ _ a false a) by (unfold gets; now rewrite Hoff).
  unfold bind at 1, ret at 1.
  exact IH.
Qed.

Lemma handlers_need_connection_witness :
  on_send_command (F:=float) AK80_64 (build "Linux")
  = (Ok tt, build "Linux").
Proof.
  exact (proj1 (proj2 (proj2 (proj2
    (handlers_need_connection (F:=float) AK80_64 (build "Linux")
       eq_refl))))).
Defined.

(** ** The mode handlers *)

(** While the application is connected to a bus, [on_enter_mode],
    [on_exit_mode] and [on_zero_position] return, hand exactly one frame to
    the bus - seven 0xFF then 0xFC, 0xFD, 0xFE - leave the motor state as
    it was and print one line: the success when [send] returned, the
    failure when it raised. *)
Theorem mode_handlers_send_once
  {F : Type} (a : MotorControlApp F) (b : Bus) :
  connected a = true ->
  bus (world a) = Some b ->
  on_enter_mode a
  = (Ok tt,
     after_send a b enter_payload (motor_state (world a))
       [if send_raises b (frame enter_payload)
        then Failed_to_enter_MIT_Mode else Entered_MIT_Mode]) /\
  on_exit_mode a
  = (Ok tt,
     after_send a b exit_payload (motor_state (world a))
       [if send_raises b (frame exit_payload)
        then Failed_to_exit_MIT_Mode else Exited_MIT_Mode]) /\
  on_zero_position a
  = (Ok tt,
     after_send a b zero_payload (motor_state (world a))
       [if send_raises b (frame zero_payload)
        then Failed_to_zero_position else Position_zeroed]).
Proof.
  intros Hc Hb.
  assert (Hready : connected_and_bus a = true)
    by (unfold connected_and_bus; now rewrite Hc, Hb).
  repeat split;
    unfold on_enter_mode, on_exit_mode, on_zero_position;
    (rewrite (bind_ok _ _ _ true _) by (unfold gets; now rewrite Hready));
    unfold on_world, on_bus, enter_mode, exit_mode, zero_position,
      try_except, bus_send, print_log, after_send, app_with, frame,
      enter_payload, exit_payload, zero_payload, bind, gets, modify, ret;
    rewrite Hb;
    destruct (send_raises b _); reflexivity.
Qed.

Lemma mode_handlers_send_once_witness :
  let a : MotorControlApp float :=
    app_with (snd (set_connected true (build "Linux")))
      {| bus := Some quiet_bus; motor_state := golden_state |} [] 0 in
  on_enter_mode a
  = (Ok tt, after_send a quiet_bus enter_payload golden_state
              [Entered_MIT_Mode]).
Proof.
  intros a.
  exact (proj1 (mode_handlers_send_once a quiet_bus eq_refl eq_refl)).
Defined.

(** ** Sending the sliders *)




(** ** The reader thread *)

(** While the application is connected to a bus that delivers messages of
    bytes and [stop_thread] is not set, [status_update_thread] returns
    whatever [recv] does in each pass - a message, a timeout or an
    exception.  It schedules one update of the display for each message of
    six bytes or more, and none for the other passes; it writes nothing
    but the telemetry - the setpoints, the bus, the sliders, the display
    and the log are what they were - and not even the telemetry when no
    pass delivers six bytes. *)
Theorem status_update_thread_schedules
  {F : Type} `{PyFloatFacts F} (K : Limits F)
  (recvs : list (result (option Message))) (a : MotorControlApp F) :
  connected_and_bus a = true ->
  stop_thread a = false ->
  Forall delivers_bytes recvs ->
  exists st : MotorState F,
    status_update_thread K recvs a
    = (Ok tt,
       after_reading a st
         (scheduled_once a + List.length (filter decodable recvs))) /\
    same_setpoints (motor_state (world a)) st /\
    (filter decodable recvs = [] -> st = motor_state (world a)).
Proof.
  intros Hready Hrun Hwf; revert a Hready Hrun.
  induction Hwf as [|recv recvs Hrecv _ IH]; intros a Hready Hgo.
  - exists (motor_state (world a)); cbn [status_update_thread filter
                                           List.length].
    rewrite Nat.add_0_r; unfold after_reading, ret.
    split; [now rewrite <- MotorControlApp_eta|].
    split; [repeat split|reflexivity].
  - cbn [status_update_thread].
    rewrite (bind_ok _ _ a false a) by (unfold gets; now rewrite Hgo).
    rewrite (bind_ok _ _ a true a) by (unfold gets; now rewrite Hready).
    assert (Hskip :
      forall c : M (MotorControlApp F) unit,
        c a = (Ok tt, a) -> decodable recv = false ->
        exists st : MotorState F,
          (c ;;; status_update_thread K recvs) a
          = (Ok tt,
             after_reading a st
               (scheduled_once a +
                List.length (filter decodable (recv :: recvs)))) /\
          same_setpoints (motor_state (world a)) st /\
          (filter decodable (recv :: recvs) = [] ->
           st = motor_state (world a))).
    { intros c Hc Hno.
      destruct (IH a Hready Hgo) as (st & Hrun & Hsame & Hnone).
      exists st; cbn [filter]; rewrite Hno.
      unfold bind; rewrite Hc; auto. }
    destruct recv as [[m|]|e].
    + destruct m as [id d ext].
      destruct (Nat.lt_ge_cases (List.length d) 6) as [Hshort|Hlong].
      * apply Hskip.
        -- unfold try_except, bind at 1, lift at 1, bind at 1,
             on_world, on_motor_state.
           rewrite (unpack_reply_short K id ext d _ Hshort).
           now destruct a as [? [? ?] ? ? ? ? ? ? ? ? ? ? ? ? ? ? ? ?].
        -- cbn [decodable data]. apply Nat.leb_gt; exact Hshort.
      * destruct d as [|b0 [|b1 [|b2 [|b3 [|b4 [|b5 rest]]]]]];
          try (cbn [List.length] in Hlong; lia).
        unfold delivers_bytes, wf_message in Hrecv; cbn [data] in Hrecv.
        inversion_clear Hrecv as [|? ? _ Hw1].
        inversion_clear Hw1 as [|? ? H1 Hw2].
        inversion_clear Hw2 as [|? ? H2 Hw3].
        inversion_clear Hw3 as [|? ? H3 Hw4].
        inversion_clear Hw4 as [|? ? H4 Hw5].
        inversion_clear Hw5 as [|? ? H5 _].
        destruct (unpack_reply_six K id ext b0 b1 b2 b3 b4 b5 rest
                    (motor_state (world a)) H1 H2 H3 H4 H5)
          as (p & v & t & _ & _ & _ & Hun).
        set (st1 := {| p_in := p_in (motor_state (world a));
                       v_in := v_in (motor_state (world a));
                       kp_in := kp_in (motor_state (world a));
                       kd_in := kd_in (motor_state (world a));
                       t_in := t_in (motor_state (world a));
                       p_out := p; v_out := v; t_out := t |}) in *.
        set (a1 := after_reading a st1 (S (scheduled_once a))).
        assert (Hready1 : connected_and_bus a1 = true) by exact Hready.
        assert (Hgo1 : stop_thread a1 = false) by exact Hgo.
        destruct (IH a1 Hready1 Hgo1) as (st & Hrun & Hsame & _).
        exists st; split; [|split].
        -- unfold bind at 1, try_except, bind at 1, lift at 1, bind at 1,
             on_world, on_motor_state.
           rewrite Hun.
           unfold Clock_schedule_once, modify;
             cbn [connected world position_slider velocity_slider kp_slider
                  kd_slider torque_slider status_display printed
                  scheduled_once bus motor_state status_thread stop_thread
                  can_interface bitrate channel_input widgets scheduler
                  shutdown_calls].
           fold st1.
           replace {| connected := connected a;
                      world := {| bus := bus (world a);
                                  motor_state := st1 |};
                      status_thread := status_thread a;
                      stop_thread := stop_thread a;
                      can_interface := can_interface a;
                      bitrate := bitrate a;
                      channel_input := channel_input a;
                      widgets := widgets a;
                      position_slider := position_slider a;
                      velocity_slider := velocity_slider a;
                      kp_slider := kp_slider a;
                      kd_slider := kd_slider a;
                      torque_slider := torque_slider a;
                      status_display := status_display a;
                      scheduler := scheduler a;
                      printed := printed a;
                      scheduled_once := S (scheduled_once a);
                      shutdown_calls := shutdown_calls a |}
             with a1
             by (unfold a1, after_reading, app_with; now rewrite app_nil_r).
           rewrite Hrun.
           cbn [filter decodable data List.length Nat.leb].
           unfold a1, after_reading, app_with;
             cbn [connected world position_slider velocity_slider kp_slider
                  kd_slider torque_slider status_display printed
                  scheduled_once bus motor_state status_thread stop_thread
                  can_interface bitrate channel_input widgets scheduler
                  shutdown_calls].
           now rewrite Nat.add_succ_r, !app_nil_r.
        -- apply (same_setpoints_trans _ st1); [|exact Hsame].
           repeat split.
        -- cbn [filter decodable data List.length Nat.leb]; discriminate.
    + apply Hskip; reflexivity.
    + apply Hskip; reflexivity.
Qed.

Lemma status_update_thread_schedules_witness :
  let a : MotorControlApp Q :=
    app_with (snd (set_connected true (build "Linux")))
      {| bus := Some quiet_bus; motor_state := MotorState_init |} [] 0 in
  scheduled_once
    (snd (status_update_thread AK80_64
            [Ok None; Raise CanError; Ok (Some test_reply);
             Ok (Some (frame [0x17; 0x80; 0x00]))] a))
  = 1%nat.
Proof.
  intros a.
  assert (Hwf : Forall delivers_bytes
                  [Ok None; Raise CanError; Ok (Some test_reply);
                   Ok (Some (frame [0x17; 0x80; 0x00]))]).
  { repeat (apply Forall_cons; [cbn; unfold wf_message; cbn;
      repeat (apply Forall_cons; [unfold is_byte; lia|]);
      try apply Forall_nil; exact I|]).
    apply Forall_nil. }
  destruct (status_update_thread_schedules AK80_64 _ a eq_refl eq_refl Hwf)
    as (st & -> & _).
  reflexivity.
Defined.

(** ** Connecting and disconnecting *)

(** Runs a straight-line handler on an application given field by
    field. *)
Ltac run_handler :=
  cbv [try_except try_except_as bind gets lift ret modify print_log
       on_world on_widgets on_scheduler on_status_display on_motor_state
       set_bus set_connected set_stop_thread set_status_thread Bus_shutdown
       Clock_schedule_once shutdown_bus
       set_connect_button set_status_label set_enter_mode_button_disabled
       set_exit_mode_button_disabled set_zero_position_button_disabled
       set_send_command_button_disabled set_continuous_button_disabled
       connected world status_thread stop_thread can_interface bitrate
       channel_input widgets position_slider velocity_slider kp_slider
       kd_slider torque_slider status_display scheduler printed
       scheduled_once shutdown_calls bus motor_state
       connect_button_text connect_button_background_color
       status_label_text status_label_color enter_mode_button_disabled
       exit_mode_button_disabled zero_position_button_disabled
       send_command_button_disabled continuous_button_disabled
       negb fst snd].

(** [toggle_connection] never raises.  While the application is not
    connected it asks the transport for a bus: if it gets one, the
    application is connected and holds it, the widgets are those of a
    connection, [stop_thread] is cleared, a reader thread is made, and the
    attempt and the success are printed; if the transport raises, nothing
    changes but the log, which has the attempt and the error.  While the
    application is connected it disconnects: the scheduler is stopped,
    [stop_thread] is set, the bus - if one is held - is shut down once and
    dropped, the widgets are those of no connection and the disconnection
    is printed.  The motor state is untouched throughout. *)
Theorem toggle_connection_outcomes
  {F : Type} (can_interface_Bus : string -> string -> Z -> result Bus)
  (a : MotorControlApp F) :
  exists a' : MotorControlApp F,
    toggle_connection can_interface_Bus a = (Ok tt, a') /\
    motor_state (world a') = motor_state (world a) /\
    if connected a then
      connected a' = false /\
      bus (world a') = None /\
      widgets a' = widgets_when false /\
      stop_thread a' = true /\
      scheduler a' = snd (stop_continuous (scheduler a)) /\
      continuous_active (scheduler a') = false /\
      shutdown_calls a'
      = shutdown_calls a ++
        match bus (world a) with Some b => [b] | None => [] end /\
      printed a' = printed a ++ [Disconnected]
    else
      match can_interface_Bus (channel_input a) (can_interface a)
              (bitrate a) with
      | Ok b =>
          connected a' = true /\
          bus (world a') = Some b /\
          widgets a' = widgets_when true /\
          stop_thread a' = false /\
          status_thread a' = true /\
          scheduler a' = scheduler a /\
          shutdown_calls a' = shutdown_calls a /\
          printed a'
          = printed a ++
            [Connecting_to (can_interface a) (channel_input a);
             Connected_successfully]
      | Raise e =>
          a' = app_with a (world a)
                 [Connecting_to (can_interface a) (channel_input a);
                  Connection_error e]
                 (scheduled_once a)
      end.
Proof.
  destruct a as [c [b st] th sp ci br ch w ps vs kps kds ts sd sch pr so sh].
  destruct c.
  - pose proof (stop_continuous_returns sch) as Hstop.
    destruct (stop_continuous sch) as [r sch'] eqn:Estop.
    cbn [fst snd] in Hstop; destruct Hstop as [-> Hidle].
    unfold toggle_connection; destruct b as [b|];
      run_handler; rewrite Estop; run_handler;
      eexists; (split; [reflexivity|]);
      rewrite ?app_nil_r; repeat split; exact Hidle.
  - unfold toggle_connection; run_handler.
    destruct (can_interface_Bus ch ci br) as [b'|e];
      eexists; (split; [reflexivity|]);
      (split; [reflexivity|]).
    + rewrite <- app_assoc; repeat split.
    + unfold app_with; run_handler.
      now rewrite <- app_assoc.
Qed.

(** ** The connection and the widgets agree *)

Section ConnectionKept.
Context {F : Type} `{PyFloat F}.
Variable K : Limits F.

Lemma same_connection_refl (a : MotorControlApp F) : same_connection a a.
Proof. repeat split; auto. Qed.

Lemma same_connection_trans (a1 a2 a3 : MotorControlApp F) :
  same_connection a1 a2 -> same_connection a2 a3 -> same_connection a1 a3.
Proof.
  unfold same_connection.
  intros (A1 & A2 & A3 & A4) (B1 & B2 & B3 & B4).
  split; [congruence|]. split; [congruence|]. split; [congruence|].
  now rewrite B4.
Qed.

Lemma bus_kept_refl (w : World F) : bus_kept w w.
Proof. unfold bus_kept; tauto. Qed.

Lemma bus_kept_trans (w1 w2 w3 : World F) :
  bus_kept w1 w2 -> bus_kept w2 w3 -> bus_kept w1 w3.
Proof. unfold bus_kept; tauto. Qed.

Lemma print_log_same_connection (m : HandlerMessage F) :
  preserves same_connection (print_log m).
Proof. intros a; repeat split; auto. Qed.

Lemma Clock_schedule_once_same_connection :
  preserves same_connection (Clock_schedule_once (F:=F)).
Proof. intros a; repeat split; auto. Qed.

Lemma on_status_display_same_connection {A} (c : M (StatusDisplay F) A) :
  preserves same_connection (on_status_display c).
Proof.
  intros a; unfold on_status_display.
  destruct (c (status_display a)); repeat split; auto.
Qed.

Lemma on_world_same_connection {A} (c : M (World F) A) :
  preserves bus_kept c -> preserves same_connection (on_world c).
Proof.
  intros Hc a; specialize (Hc (world a)); unfold on_world.
  destruct (c (world a)) as [r w']; cbn [snd] in *.
  repeat split; apply Hc.
Qed.

Lemma on_motor_state_bus_kept {A} (c : M (MotorState F) A) :
  preserves bus_kept (on_motor_state c).
Proof.
  intros w; unfold on_motor_state.
  destruct (c (motor_state w)); unfold bus_kept; cbn [snd bus]; tauto.
Qed.

Lemma mode_commands_bus_kept :
  preserves bus_kept (on_bus (F:=F) enter_mode) /\
  preserves bus_kept (on_bus (F:=F) exit_mode) /\
  preserves bus_kept (on_bus (F:=F) zero_position).
Proof.
  split; [|split]; intros [[b|] st];
    unfold bus_kept, on_bus, enter_mode, exit_mode, zero_position,
      try_except, bus_send, bind, gets, ret; cbn [bus snd];
    try tauto;
    destruct (send_raises b _); cbn [bus snd]; split; discriminate.
Qed.

Lemma pack_cmd_bus_kept : preserves bus_kept (pack_cmd K).
Proof.
  intros w; unfold bus_kept.
  destruct (pack_cmd_bus_effect K w) as [-> | (b & payload & Hb & ->)];
    [tauto|].
  rewrite Hb; cbn [bus]; split; discriminate.
Qed.

Lemma mode_handlers_same_connection :
  preserves same_connection (on_enter_mode (F:=F)) /\
  preserves same_connection (on_exit_mode (F:=F)) /\
  preserves same_connection (on_zero_position (F:=F)).
Proof.
  pose proof same_connection_refl as Hr.
  pose proof same_connection_trans as Ht.
  destruct mode_commands_bus_kept as (He & Hx & Hz).
  split; [|split];
    (apply preserves_bind; [assumption|now apply preserves_gets|]);
    (intros [|]; [|now apply preserves_ret]);
    (apply preserves_bind;
       [assumption|now apply on_world_same_connection|]);
    intros [|]; apply print_log_same_connection.
Qed.

Lemma slider_update_same_connection (c : M (MotorState F) unit) :
  preserves same_connection (on_world (on_motor_state c)).
Proof. apply on_world_same_connection, on_motor_state_bus_kept. Qed.

Lemma on_send_command_same_connection :
  preserves same_connection (on_send_command K) /\
  preserves same_connection (continuous_update K).
Proof.
  pose proof same_connection_refl as Hr.
  pose proof same_connection_trans as Ht.
  split.
  - unfold on_send_command.
    apply preserves_bind; [assumption|now apply preserves_gets|].
    intros [|]; [|now apply preserves_ret].
    do 5 (apply preserves_bind; [assumption|now apply preserves_gets|];
          intros ?;
          apply preserves_bind;
            [assumption|apply slider_update_same_connection|];
          intros _).
    apply preserves_bind;
      [assumption|apply on_world_same_connection, pack_cmd_bus_kept|].
    intros [|]; [|apply print_log_same_connection].
    apply preserves_bind; [assumption|now apply preserves_gets|].
    intros ?; apply print_log_same_connection.
  - unfold continuous_update.
    apply preserves_bind; [assumption|now apply preserves_gets|].
    intros [|]; [|now apply preserves_ret].
    do 5 (apply preserves_bind; [assumption|now apply preserves_gets|];
          intros ?;
          apply preserves_bind;
            [assumption|apply slider_update_same_connection|];
          intros _).
    apply preserves_bind;
      [assumption|apply on_world_same_connection, pack_cmd_bus_kept|].
    intros _; now apply preserves_ret.
Qed.

Lemma update_status_display_same_connection :
  preserves same_connection (update_status_display (F:=F)).
Proof.
  pose proof same_connection_refl as Hr.
  pose proof same_connection_trans as Ht.
  apply preserves_bind; [assumption|now apply preserves_gets|].
  intros ?; apply on_status_display_same_connection.
Qed.

Lemma status_update_thread_same_connection
    (recvs : list (result (option Message))) :
  preserves same_connection (status_update_thread K recvs).
Proof.
  pose proof same_connection_refl as Hr.
  pose proof same_connection_trans as Ht.
  induction recvs as [|recv recvs IH]; [now apply preserves_ret|].
  cbn [status_update_thread].
  apply preserves_bind; [assumption|now apply preserves_gets|].
  intros [|]; [now apply preserves_ret|].
  apply preserves_bind; [assumption|now apply preserves_gets|].
  intros ready.
  apply preserves_bind; [assumption| |intros _; exact IH].
  destruct ready; [|now apply preserves_ret].
  apply preserves_try_except; [assumption| |now apply preserves_ret].
  apply preserves_bind; [assumption|now apply preserves_lift|].
  intros [m|]; [|now apply preserves_ret].
  apply preserves_bind;
    [assumption
    |apply on_world_same_connection, on_motor_state_bus_kept|].
  intros [|]; [apply Clock_schedule_once_same_connection
              |now apply preserves_ret].
Qed.

Lemma same_connection_consistent (a a' : MotorControlApp F) :
  same_connection a a' -> consistent a ->
  one_timer (scheduler a) = true ->
  consistent a' /\ one_timer (scheduler a') = true.
Proof.
  unfold same_connection, consistent.
  intros (Hc & Hw & Hs & Hb) [Hcb Hwd] Hone.
  rewrite Hc, Hw, Hs, Hb; auto.
Qed.

Lemma toggle_connection_consistent
    (can_interface_Bus : string -> string -> Z -> result Bus)
    (a : MotorControlApp F) :
  consistent a -> one_timer (scheduler a) = true ->
  consistent (snd (toggle_connection can_interface_Bus a)) /\
  one_timer (scheduler (snd (toggle_connection can_interface_Bus a)))
  = true.
Proof.
  intros Hcons Hone.
  destruct (one_timer_kept (fun _ => Raise ValueError) (scheduler a) Hone)
    as (_ & Hok & Hone' & _).
  destruct a as [c [b st] th sp ci br ch w ps vs kps kds ts sd sch pr so sh].
  unfold consistent in *; cbn [connected world bus widgets scheduler] in *.
  destruct Hcons as [Hcb Hw].
  destruct c.
  - destruct (stop_continuous sch) as [r sch'] eqn:Estop.
    cbn [fst snd] in Hok, Hone'; subst r.
    unfold toggle_connection; destruct b as [b|];
      run_handler; rewrite Estop; run_handler;
      (split; [|exact Hone']);
      (split; [split; [discriminate|intros Hn; now contradiction Hn]
              |reflexivity]).
  - unfold toggle_connection; run_handler.
    destruct (can_interface_Bus ch ci br) as [b'|e]; run_handler;
      (split; [|exact Hone]).
    + split; [split; [discriminate|reflexivity]|reflexivity].
    + split; assumption.
Qed.

Lemma scheduler_callbacks_consistent
    (float_of_str : string -> result F) (a : MotorControlApp F) :
  consistent a -> one_timer (scheduler a) = true ->
  (consistent (snd (on_scheduler (toggle_continuous float_of_str) a)) /\
   one_timer
     (scheduler (snd (on_scheduler (toggle_continuous float_of_str) a)))
   = true) /\
  (consistent (snd (on_stop a)) /\
   one_timer (scheduler (snd (on_stop a))) = true).
Proof.
  intros Hcons Hone.
  destruct (one_timer_kept float_of_str (scheduler a) Hone)
    as (Htog & Hok & Hone' & _).
  destruct a as [c [b st] th sp ci br ch w ps vs kps kds ts sd sch pr so sh].
  unfold consistent in *; cbn [connected world bus widgets scheduler] in *.
  split.
  - unfold on_scheduler; cbn [scheduler].
    destruct (toggle_continuous float_of_str sch) as [r sch'].
    cbn [snd connected world bus widgets scheduler] in *; auto.
  - destruct (stop_continuous sch) as [r sch'] eqn:Estop.
    cbn [fst snd] in Hok, Hone'; subst r.
    unfold on_stop; run_handler; rewrite Estop; run_handler.
    destruct b; run_handler; auto.
Qed.

End ConnectionKept.

(** As [build] leaves it the application is consistent - connected exactly
    when it holds a bus, the five command buttons enabled exactly then, the
    connect button and the status label reading accordingly - and its
    [Clock] holds no timer.  Every callback, whatever the transport, the
    text of the interval field and the bus do, and whether it returns or
    raises, leads from a consistent application whose [Clock] holds at most
    the scheduler's one timer to such an application again. *)
Theorem callbacks_keep_consistent
  {F : Type} `{PyFloat F} (K : Limits F)
  (float_of_str : string -> result F)
  (can_interface_Bus : string -> string -> Z -> result Bus) :
  (forall system : string,
     consistent (build (F:=F) system) /\
     one_timer (scheduler (build (F:=F) system)) = true) /\
  (forall (cb : Callback) (a : MotorControlApp F),
     consistent a ->
     one_timer (scheduler a) = true ->
     consistent (snd (call K float_of_str can_interface_Bus cb a)) /\
     one_timer
       (scheduler (snd (call K float_of_str can_interface_Bus cb a)))
     = true).
Proof.
  split.
  - intros system; split; [|reflexivity].
    split; [|reflexivity].
    cbn [build connected world bus]; split; [discriminate|].
    intros Hn; now contradiction Hn.
  - intros cb a Hcons Hone.
    destruct (mode_handlers_same_connection (F:=F)) as (He & Hx & Hz).
    destruct (on_send_command_same_connection K) as (Hs & Hu).
    destruct cb; cbn [call].
    + now apply toggle_connection_consistent.
    + exact (same_connection_consistent _ _ (He a) Hcons Hone).
    + exact (same_connection_consistent _ _ (Hx a) Hcons Hone).
    + exact (same_connection_consistent _ _ (Hz a) Hcons Hone).
    + exact (same_connection_consistent _ _ (Hs a) Hcons Hone).
    + now apply scheduler_callbacks_consistent.
    + exact (same_connection_consistent _ _ (Hu a) Hcons Hone).
    + exact (same_connection_consistent _ _
               (status_update_thread_same_connection K recvs a) Hcons Hone).
    + exact (same_connection_consistent _ _
               (update_status_display_same_connection a) Hcons Hone).
    + now apply scheduler_callbacks_consistent.
Qed.

Lemma callbacks_keep_consistent_witness :
  consistent
    (snd (call (F:=float) AK80_64 (fun _ => Ok (lit 0.1))
            (fun _ _ _ => Ok quiet_bus) Toggle_connection
            (build "Linux"))) /\
  one_timer
    (scheduler
       (snd (call (F:=float) AK80_64 (fun _ => Ok (lit 0.1))
               (fun _ _ _ => Ok quiet_bus) Toggle_connection
               (build "Linux"))))
  = true.
Proof.
  apply (proj2 (callbacks_keep_consistent (F:=float) AK80_64
                  (fun _ => Ok (lit 0.1)) (fun _ _ _ => Ok quiet_bus))
           Toggle_connection (build "Linux")).
  - split; [|reflexivity].
    split; [discriminate|intros Hn; now contradiction Hn].
  - reflexivity.
Defined.

(** ** The display stays within the limits *)

Section ReadingsKept.
Context {F : Type} `{PyFloat F}.
Variable K : Limits F.



Lemma same_telemetry_refl (w : World F) : same_telemetry w w.
Proof. repeat split. Qed.

Lemma same_telemetry_trans (w1 w2 w3 : World F) :
  same_telemetry w1 w2 -> same_telemetry w2 w3 -> same_telemetry w1 w3.
Proof.
  unfold same_telemetry.
  intros (A1 & A2 & A3) (B1 & B2 & B3).
  repeat split; congruence.
Qed.








End ReadingsKept.

Section WithinLimits.
Variable K : Limits Q.
Hypothesis LP : (P_MIN K < P_MAX K)%Q.
Hypothesis LV : (V_MIN K < V_MAX K)%Q.
Hypothesis LT : (0 < T_MAX K)%Q.





End WithinLimits.



(** ** The interface of the platform *)

(** Whatever [platform.system()] returns, [detect_can_interface] chooses
    the interface [slcan]; the channel is [/dev/ttyACM0] exactly on Linux
    and [COM5] on every other system, Windows or not.  [build] keeps both,
    with the bitrate 1000000, so these are what the first
    [toggle_connection] hands to the transport unless the channel field is
    edited. *)
Theorem detect_can_interface_channels
  {F : Type} `{PyFloat F} (system : string) :
  fst (detect_can_interface system) = "slcan"%string /\
  (snd (detect_can_interface system) = "/dev/ttyACM0"%string <->
   system = "Linux"%string) /\
  (system <> "Linux"%string ->
   snd (detect_can_interface system) = "COM5"%string) /\
  can_interface (build (F:=F) system) = "slcan"%string /\
  channel_input (build (F:=F) system) = snd (detect_can_interface system) /\
  bitrate (build (F:=F) system) = 1000000.
Proof.
  assert (Hd : fst (detect_can_interface system) = "slcan"%string /\
               (snd (detect_can_interface system) = "/dev/ttyACM0"%string <->
                system = "Linux"%string) /\
               (system <> "Linux"%string ->
                snd (detect_can_interface system) = "COM5"%string)).
  { unfold detect_can_interface.
    destruct (String.eqb_spec system "Windows") as [->|Hw].
    - cbn; repeat split; try discriminate; reflexivity.
    - destruct (String.eqb_spec system "Linux") as [->|Hl].
      + cbn; repeat split; try reflexivity. intros Hn; now contradiction Hn.
      + cbn; repeat split; try discriminate; try reflexivity.
        intros Hl'; now contradiction Hl. }
  destruct Hd as (Hi & Hc & Ho).
  repeat split; try assumption; apply Hc.
Qed.

Lemma detect_can_interface_channels_witness :
  snd (detect_can_interface "Darwin") = "COM5"%string.
Proof.
  destruct (detect_can_interface_channels (F:=float) "Darwin")
    as (_ & _ & Hother & _).
  apply Hother; discriminate.
Defined.
